(** * A shallow embedding of [vtkreader.py] (python-vtkreader)

    The reader is Python 2 code ([base64.b64encode] is applied to [str]
    values, which only works on Python 2 byte strings), so text is modelled
    as byte strings: a [string] of 8-bit [ascii] characters.  Numbers read
    from a byte buffer are modelled as [Z]: the integer value for the
    integer kinds, and the IEEE bit pattern for the float kinds (the
    decoder never does arithmetic on array elements, it only moves their
    bytes).  Python exceptions are the constructors of [exc]. *)

From Stdlib Require Import ZArith List String Ascii Bool Lia.
Import ListNotations.

Open Scope Z_scope.

(** ** Python exceptions and the error monad *)

Inductive exc : Type :=
| ValueError (msg : string)
| KeyError (key : string)
| StructError (msg : string)
| UnboundLocalError (name : string)
| TypeError (msg : string)
| AttributeError (name : string)
| OverflowError (msg : string).

Inductive result (A : Type) : Type :=
| Ok (a : A)
| Err (e : exc).
Arguments Ok {A} a.
Arguments Err {A} e.

Definition bind {A B} (m : result A) (k : A -> result B) : result B :=
  match m with
  | Ok a => k a
  | Err e => Err e
  end.

Notation "'let*' x ':=' m 'in' k" := (bind m (fun x => k))
  (at level 200, x name, m at level 100, k at level 200).

(** ** Numeric kinds: the [buffers] table and [struct] sizes *)

Inductive kind : Type :=
| Int8 | UInt8 | Int16 | UInt16 | Int32 | UInt32 | Int64 | UInt64
| Float32 | Float64.

(** [VTKTreeBuilder.buffers]: the ten recognised type names. *)
Definition buffers (name : string) : option kind :=
  if String.eqb name "Int8" then Some Int8
  else if String.eqb name "UInt8" then Some UInt8
  else if String.eqb name "Int16" then Some Int16
  else if String.eqb name "UInt16" then Some UInt16
  else if String.eqb name "Int32" then Some Int32
  else if String.eqb name "UInt32" then Some UInt32
  else if String.eqb name "Int64" then Some Int64
  else if String.eqb name "UInt64" then Some UInt64
  else if String.eqb name "Float32" then Some Float32
  else if String.eqb name "Float64" then Some Float64
  else None.

Definition kind_name (k : kind) : string :=
  match k with
  | Int8 => "Int8" | UInt8 => "UInt8" | Int16 => "Int16" | UInt16 => "UInt16"
  | Int32 => "Int32" | UInt32 => "UInt32" | Int64 => "Int64"
  | UInt64 => "UInt64" | Float32 => "Float32" | Float64 => "Float64"
  end.

(** [struct.calcsize] of the kind's format code ([b B h H i I q Q f d]). *)
Definition width (k : kind) : nat :=
  match k with
  | Int8 | UInt8 => 1
  | Int16 | UInt16 => 2
  | Int32 | UInt32 | Float32 => 4
  | Int64 | UInt64 | Float64 => 8
  end.

Definition calcsize (k : kind) : Z := Z.of_nat (width k).

Definition is_signed (k : kind) : bool :=
  match k with
  | Int8 | Int16 | Int32 | Int64 => true
  | _ => false
  end.

Definition is_float (k : kind) : bool :=
  match k with
  | Float32 | Float64 => true
  | _ => false
  end.

(** Values a kind can hold: its integer range, or its bit patterns. *)
Definition in_range (k : kind) (v : Z) : Prop :=
  if is_signed k
  then - 2 ^ (8 * calcsize k - 1) <= v < 2 ^ (8 * calcsize k - 1)
  else 0 <= v < 2 ^ (8 * calcsize k).

(** ** Byte order: [VTKTreeBuilder.byteorders] *)

Inductive endian : Type := Little | Big.

Definition byteorders (name : string) : option endian :=
  if String.eqb name "LittleEndian" then Some Little
  else if String.eqb name "BigEndian" then Some Big
  else None.

(** ** [struct.pack] / [struct.unpack_from] for one value *)

(** Least significant byte first, as [_struct]'s [lp_*] packers do. *)
Fixpoint pack_le (w : nat) (v : Z) : list Z :=
  match w with
  | O => []
  | S w' => v mod 256 :: pack_le w' (v / 256)
  end.

Fixpoint unpack_le (bs : list Z) : Z :=
  match bs with
  | [] => 0
  | b :: bs' => b + 256 * unpack_le bs'
  end.

Definition order_bytes (e : endian) (bs : list Z) : list Z :=
  match e with
  | Little => bs
  | Big => rev bs
  end.

Definition pack (e : endian) (k : kind) (v : Z) : list Z :=
  order_bytes e (pack_le (width k) v).

(** A Python number: [struct.unpack] of a float code gives a [float]. *)
Inductive pynum : Type :=
| PInt (z : Z)
| PFloat (k : kind) (bits : Z).

Definition unpack_value (e : endian) (k : kind) (bs : list Z) : Z :=
  let u := unpack_le (order_bytes e bs) in
  if is_signed k && (2 ^ (8 * calcsize k - 1) <=? u)
  then u - 2 ^ (8 * calcsize k)
  else u.

Definition unpack_num (e : endian) (k : kind) (bs : list Z) : pynum :=
  if is_float k then PFloat k (unpack_value e k bs) else PInt (unpack_value e k bs).

Definition unpack_from_msg : string :=
  "unpack_from requires a buffer of at least the struct size".

(** [PY_SSIZE_T_MAX] (and [NPY_MAX_INTP]) on a 64-bit machine: [2 ^ 63 - 1]. *)
Definition ssize_max : Z := 9223372036854775807.

(** The [OverflowError] of the ["n"] argument format, which [struct.unpack_from]
    uses for [offset] and [np.fromstring] for [count]: on a 64-bit Linux
    Python 2.7 it converts with [PyInt_AsLong]. *)
Definition ssize_msg : string := "Python int too large to convert to C long".

Definition fits_ssize (z : Z) : bool := (- ssize_max - 1 <=? z) && (z <=? ssize_max).

(** [struct.unpack_from(fmt, buffer, offset)[0]].  The offset is converted to
    a [Py_ssize_t] before the bounds check.  A Python buffer holds fewer than
    [2 ^ 63] bytes, so an offset that does not convert always fails the bounds
    check as well: the conversion error is told apart in that branch. *)
Definition unpack_from (e : endian) (k : kind) (buf : list Z) (offset : Z)
  : result pynum :=
  let len := Z.of_nat (List.length buf) in
  let off := if offset <? 0 then offset + len else offset in
  if (off <? 0) || (len - off <? calcsize k)
  then if fits_ssize offset
       then Err (StructError unpack_from_msg)
       else Err (OverflowError ssize_msg)
  else Ok (unpack_num e k (firstn (width k) (skipn (Z.to_nat off) buf))).

(** ** [base64] *)

Definition char_code (c : ascii) : Z := Z.of_nat (nat_of_ascii c).
Definition char_of_code (z : Z) : ascii := ascii_of_nat (Z.to_nat z).

(** [table_b2a_base64] *)
Definition char_of_sextet (v : Z) : ascii :=
  if v <? 26 then char_of_code (65 + v)
  else if v <? 52 then char_of_code (97 + (v - 26))
  else if v <? 62 then char_of_code (48 + (v - 52))
  else if v =? 62 then "+"%char
  else "/"%char.

(** [table_a2b_base64], without the pad entry (the pad is tested first). *)
Definition sextet_of_char (c : ascii) : option Z :=
  let n := char_code c in
  if (65 <=? n) && (n <=? 90) then Some (n - 65)
  else if (97 <=? n) && (n <=? 122) then Some (n - 97 + 26)
  else if (48 <=? n) && (n <=? 57) then Some (n - 48 + 52)
  else if n =? 43 then Some 62
  else if n =? 47 then Some 63
  else None.

(** The three-bytes-to-four-characters grouping of [binascii.b2a_base64]. *)
Definition enc1 (b1 : Z) : Z := Z.shiftr b1 2.
Definition enc2 (b1 b2 : Z) : Z := Z.lor (Z.shiftl (Z.land b1 3) 4) (Z.shiftr b2 4).
Definition enc3 (b2 b3 : Z) : Z := Z.lor (Z.shiftl (Z.land b2 15) 2) (Z.shiftr b3 6).
Definition enc4 (b3 : Z) : Z := Z.land b3 63.

(** [base64.b64encode]: [binascii.b2a_base64] without its trailing newline. *)
Fixpoint b64encode (bs : list Z) : string :=
  match bs with
  | b1 :: b2 :: b3 :: rest =>
      String (char_of_sextet (enc1 b1)) (String (char_of_sextet (enc2 b1 b2))
        (String (char_of_sextet (enc3 b2 b3)) (String (char_of_sextet (enc4 b3))
          (b64encode rest))))
  | [b1; b2] =>
      String (char_of_sextet (enc1 b1)) (String (char_of_sextet (enc2 b1 b2))
        (String (char_of_sextet (Z.shiftl (Z.land b2 15) 2)) "="))
  | [b1] =>
      String (char_of_sextet (enc1 b1))
        (String (char_of_sextet (Z.shiftl (Z.land b1 3) 4)) "==")
  | [] => ""
  end.

Definition is_pad (c : ascii) : bool := Ascii.eqb c "=".

(** [binascii_find_valid(s, len, num)]: the (num+1)-th character of [s] that
    is in the table (the pad counts as valid). *)
Fixpoint find_valid (num : nat) (s : string) : option ascii :=
  match s with
  | EmptyString => None
  | String c s' =>
      if (char_code c <=? 127) && (is_pad c || match sextet_of_char c with Some _ => true | None => false end)
      then match num with
           | O => Some c
           | S num' => find_valid num' s'
           end
      else find_valid num s'
  end.

(** The decoding loop of CPython 2.7's [binascii.a2b_base64]: characters
    above 0x7f, CR, LF, space and characters outside the table are skipped;
    a pad ends the input once two data characters of the quad are read (at
    the third position only if the next valid character is a pad too);
    leftover bits at the end are an error. *)
Fixpoint a2b_loop (quad_pos leftchar leftbits : Z) (acc : list Z) (s : string)
  : result (list Z) :=
  match s with
  | EmptyString =>
      if leftbits =? 0 then Ok (rev acc)
      else Err (TypeError "Incorrect padding")
  | String c s' =>
      if (127 <? char_code c) || (char_code c =? 13) || (char_code c =? 10)
         || (char_code c =? 32)
      then a2b_loop quad_pos leftchar leftbits acc s'
      else if is_pad c then
        if (quad_pos <? 2)
           || ((quad_pos =? 2)
               && negb (match find_valid 1 s with
                        | Some c' => is_pad c'
                        | None => false
                        end))
        then a2b_loop quad_pos leftchar leftbits acc s'
        else Ok (rev acc)
      else match sextet_of_char c with
        | None => a2b_loop quad_pos leftchar leftbits acc s'
        | Some v =>
            let quad_pos' := Z.land (quad_pos + 1) 3 in
            let leftchar' := Z.lor (Z.shiftl leftchar 6) v in
            let leftbits' := leftbits + 6 in
            if 8 <=? leftbits'
            then a2b_loop quad_pos'
                   (Z.land leftchar' (Z.shiftl 1 (leftbits' - 8) - 1))
                   (leftbits' - 8)
                   (Z.land (Z.shiftr leftchar' (leftbits' - 8)) 255 :: acc) s'
            else a2b_loop quad_pos' leftchar' leftbits' acc s'
        end
  end.

(** [base64.b64decode] (Python 2.7: a [binascii.Error] becomes a [TypeError]). *)
Definition b64decode (s : string) : result (list Z) := a2b_loop 0 0 0 [] s.

Definition bytes_of_string (s : string) : list Z :=
  map char_code (list_ascii_of_string s).

(** ** Python string and list helpers *)

(** [str.isspace] for one byte (C [isspace]). *)
Definition is_space (c : ascii) : bool :=
  let n := char_code c in (n =? 32) || ((9 <=? n) && (n <=? 13)).

Fixpoint drop_space (cs : list ascii) : list ascii :=
  match cs with
  | c :: cs' => if is_space c then drop_space cs' else cs
  | [] => []
  end.

(** [str.strip()] *)
Definition py_strip (s : string) : string :=
  string_of_list_ascii (rev (drop_space (rev (drop_space (list_ascii_of_string s))))).

(** [s[:n]] and [s[n:]] for a non-negative [n]. *)
Definition py_slice_to (n : nat) (s : string) : string := substring 0 n s.
Definition py_slice_from (n : nat) (s : string) : string :=
  substring n (String.length s - n) s.

(** [buf[i:]] on a list, [i] any Python integer. *)
Definition py_drop {A} (i : Z) (xs : list A) : list A :=
  let len := Z.of_nat (List.length xs) in
  let start := if i <? 0 then Z.max 0 (i + len) else Z.min i len in
  skipn (Z.to_nat start) xs.

Definition digit_value (c : ascii) : option Z :=
  let n := char_code c in
  if (48 <=? n) && (n <=? 57) then Some (n - 48) else None.

Fixpoint digits_value (acc : Z) (cs : list ascii) : option Z :=
  match cs with
  | [] => Some acc
  | c :: cs' =>
      match digit_value c with
      | Some d => digits_value (10 * acc + d) cs'
      | None => None
      end
  end.

(** A decimal literal with an optional sign. *)
Definition parse_decimal (cs : list ascii) : option Z :=
  match cs with
  | [] => None
  | c :: cs' =>
      if Ascii.eqb c "-" then
        match cs' with [] => None | _ => option_map Z.opp (digits_value 0 cs') end
      else if Ascii.eqb c "+" then
        match cs' with [] => None | _ => digits_value 0 cs' end
      else digits_value 0 cs
  end.

(** [int(s)] on a string. *)
Definition py_int (s : string) : result Z :=
  match parse_decimal (list_ascii_of_string (py_strip s)) with
  | Some z => Ok z
  | None => Err (ValueError ("invalid literal for int() with base 10: " ++ s))
  end.

(** XML attributes, in document order. *)
Definition attrs := list (string * string).

Fixpoint attr_get (key : string) (a : attrs) : option string :=
  match a with
  | [] => None
  | (k, v) :: a' => if String.eqb k key then Some v else attr_get key a'
  end.

(** [attrib[key]] *)
Definition attr_index (key : string) (a : attrs) : result string :=
  match attr_get key a with
  | Some v => Ok v
  | None => Err (KeyError key)
  end.

(** [self.buffers[name]] *)
Definition buffers_index (name : string) : result kind :=
  match buffers name with
  | Some k => Ok k
  | None => Err (KeyError name)
  end.

(** ** numpy *)

Inductive payload : Type :=
| Flat (xs : list Z)
| Rows (rs : list (list Z)).

Fixpoint read_elems (e : endian) (k : kind) (n : nat) (buf : list Z) : list Z :=
  match n with
  | O => []
  | S n' => unpack_value e k (firstn (width k) buf)
              :: read_elems e k n' (skipn (width k) buf)
  end.

Definition smaller_msg : string := "string is smaller than requested size".
Definition multiple_msg : string := "string size must be a multiple of element size".
Definition too_big_msg : string :=
  "array is too big; `arr.size * arr.dtype.itemsize` is larger than the maximum possible size.".

(** A product computed in [npy_intp]: it wraps modulo [2 ^ 64]. *)
Definition wrap_intp (z : Z) : Z :=
  let u := z mod 18446744073709551616 in
  if ssize_max <? u then u - 18446744073709551616 else u.

(** [np.fromstring(buf, dtype, count=count)]: binary mode
    ([PyArray_FromString]).  [count] is converted to an [npy_intp] first;
    a non-negative count is checked with [slen < num * itemsize], a product
    that wraps, and the array of [num] items is then allocated, which fails
    when [num * itemsize] exceeds [NPY_MAX_INTP].  A Python string holds
    fewer than [2 ^ 63] bytes, so a count that does not convert, or whose
    byte size overflows, always asks for more than the string holds: the
    three failures are told apart in that branch. *)
Definition fromstring_bin (e : endian) (k : kind) (buf : list Z) (count : Z)
  : result (list Z) :=
  let len := Z.of_nat (List.length buf) in
  if count <? 0 then
    if negb (fits_ssize count) then Err (OverflowError ssize_msg)
    else if len mod calcsize k =? 0
    then Ok (read_elems e k (Z.to_nat (len / calcsize k)) buf)
    else Err (ValueError multiple_msg)
  else if len <? count * calcsize k then
    if negb (fits_ssize count) then Err (OverflowError ssize_msg)
    else if len <? wrap_intp (count * calcsize k) then Err (ValueError smaller_msg)
    else Err (ValueError too_big_msg)
  else Ok (read_elems e k (Z.to_nat count) buf).

(** A C integer conversion to the kind's width. *)
Definition wrap (k : kind) (z : Z) : Z :=
  let u := z mod 2 ^ (8 * calcsize k) in
  if is_signed k && (2 ^ (8 * calcsize k - 1) <=? u) then u - 2 ^ (8 * calcsize k) else u.

(** [self.elem.attrib.get("NumberOfComponents") or 0] through [int]. *)
Definition ncomp_of (a : attrs) : result Z :=
  match attr_get "NumberOfComponents" a with
  | None | Some EmptyString => Ok 0
  | Some s => py_int s
  end.

Fixpoint rows_of (c : nat) (n : nat) (xs : list Z) : list (list Z) :=
  match n with
  | O => []
  | S n' => firstn c xs :: rows_of c n' (skipn c xs)
  end.

Definition reshape_msg : string := "cannot reshape array into shape (-1, ncomp)".

(** [array.reshape(-1, ncomp)] of a one-dimensional array. *)
Definition reshape (ncomp : Z) (xs : list Z) : result payload :=
  let len := Z.of_nat (List.length xs) in
  if len mod ncomp =? 0
  then Ok (Rows (rows_of (Z.to_nat ncomp) (Z.to_nat (len / ncomp)) xs))
  else Err (ValueError reshape_msg).

(** ** The document header read from the [VTKFile] tag *)

Record doc := {
  split_header : bool;
  byteorder : endian;
  header_type : kind
}.

Definition missing_version_msg : string := "Missing version attribute in VTKFile tag".
Definition unknown_byteorder_msg (bo : string) : string := "Unknown byteorder " ++ bo.
Definition format_msg (fmt : string) : string :=
  "VTK data format must be 'ascii', 'binary' (base64), or 'appended'. Got: " ++ fmt.

(** The [tag == "VTKFile"] branch of [VTKTreeBuilder.start].  A missing
    [byte_order] makes the [except] clause index [attrib] again, so the
    [KeyError] escapes. *)
Definition start_vtkfile (a : attrs) : result doc :=
  match attr_get "version" a with
  | None => Err (ValueError missing_version_msg)
  | Some v =>
      let split := String.eqb v "0.1" in
      match attr_get "byte_order" a with
      | None => Err (KeyError "byte_order")
      | Some bo =>
          match byteorders bo with
          | None => Err (ValueError (unknown_byteorder_msg bo))
          | Some e =>
              let ht := match attr_get "header_type" a with
                        | Some h => match buffers h with
                                    | Some k => k
                                    | None => UInt32
                                    end
                        | None => UInt32
                        end in
              Ok {| split_header := split; byteorder := e; header_type := ht |}
          end
      end
  end.

(** One entry of [self.appended_data_arrays]: offset, type name, element. *)
Definition registration := (Z * string * nat)%type.

(** The [tag == "DataArray"] branch of [VTKTreeBuilder.start]. *)
Definition start_dataarray (regs : list registration) (el : nat) (a : attrs)
  : result (list registration) :=
  let* fmt := attr_index "format" a in
  let* regs' :=
    if String.eqb fmt "appended" then
      let* o := attr_index "offset" a in
      let* off := py_int o in
      let* t := attr_index "type" a in
      Ok (regs ++ [(off, t, el)])
    else Ok regs in
  if String.eqb fmt "binary" || String.eqb fmt "ascii" || String.eqb fmt "appended"
  then Ok regs'
  else Err (ValueError (format_msg fmt)).

(** ** [VTKTreeBuilder]: decoding of array payloads *)

Section Decoder.

(** The byte order of the machine: numpy reads a dtype without a byte-order
    prefix in this order, and its text parser writes values in it. *)
Variable native : endian.

(** [int(x / n)] for the Python float [x] of the given kind with the given
    bit pattern (a float [header_type]): the integer, or the error [int]
    raises ([OverflowError] for an infinity, [ValueError] for a NaN). *)
Variable float_count : kind -> Z -> Z -> result Z.

(** The [fromstr] function of numpy's dtype for the kind ([PyOS_strtol],
    [PyOS_strtoul], [NumPyOS_strtoll], [NumPyOS_strtoull] or numpy's float
    parser), applied at a position of the text: the value it writes, as the
    C type of the kind (a bit pattern for the floats), and the text after
    what it read; [None] when it reads nothing. *)
Variable fromstr : kind -> list ascii -> option (Z * list ascii).

(** [int(data_len / struct.calcsize(cbuf))]: Python 2 [/] floors on [int]s. *)
Definition py_count (n : pynum) (size : Z) : result Z :=
  match n with
  | PInt z => Ok (z / size)
  | PFloat k bits => float_count k bits size
  end.

(** The loop of numpy's [array_from_text] with [fromstr_next_element] and
    [fromstr_skip_separator] for the separator [" "]: read an element, stop
    when nothing is read; then the separator, a whitespace wildcard that
    must match at least one whitespace character; the end of the text ends
    the loop, and so does a character that is not whitespace right after an
    element.  Each round consumes at least one character of a text read by
    a C parser, so the fuel (the length of the text) never runs out. *)
Fixpoint sep_loop (fuel : nat) (k : kind) (cs : list ascii) : list Z :=
  match fuel with
  | O => []
  | S fuel' =>
      match fromstr k cs with
      | None => []
      | Some (v, rest) =>
          v :: match rest with
               | [] => []
               | c :: _ =>
                   if is_space c
                   then match drop_space rest with
                        | [] => []
                        | rest' => sep_loop fuel' k rest'
                        end
                   else []
               end
      end
  end.

(** [np.fromstring(text, dtype=cbuf, sep=' ')] where [cbuf] has byte order
    [e]: the parser writes each value in the machine's byte order into the
    array, whose dtype reads its bytes in the order [e]. *)
Definition fromstring_sep (e : endian) (k : kind) (text : string) : list Z :=
  let cs := list_ascii_of_string text in
  map (fun v => unpack_value e k (pack native k v)) (sep_loop (S (List.length cs)) k cs).

(** Lines 102-119 of [handle_data_array]: the flat array.  In the version
    1.0 branch the name [array_data] is a local of the function (it is
    assigned further down), read before any assignment.  Line 110 builds a
    string [byte_string] that nothing uses; it is left out, so the model
    describes the runs in which building it succeeds (it raises
    [MemoryError] or [OverflowError] when the header announces more elements
    than can be allocated); its [int(...)] is the one of line 111. *)
Definition decode_flat (d : doc) (a : attrs) (text : string) : result (list Z) :=
  let* tname := attr_index "type" a in
  let* k := buffers_index tname in
  let* fmt := attr_index "format" a in
  if String.eqb fmt "binary" then
    let input_data := py_strip text in
    let header_size :=
      String.length (b64encode (pack (byteorder d) (header_type d) 0)) in
    let* hdr := b64decode (py_slice_to header_size input_data) in
    let* data_len := unpack_from (byteorder d) (header_type d) hdr 0 in
    if split_header d then
      let* data_content := b64decode (py_slice_from header_size input_data) in
      let* data_bytelen := py_count data_len (calcsize k) in
      fromstring_bin (byteorder d) k data_content data_bytelen
    else Err (UnboundLocalError "array_data")
  else Ok (fromstring_sep (byteorder d) k text).

(** Lines 120-122: the [NumberOfComponents] reshape. *)
Definition finish_shape (a : attrs) (flat : list Z) : result payload :=
  let* ncomp := ncomp_of a in
  if 1 <? ncomp then reshape ncomp flat else Ok (Flat flat).

(** [VTKTreeBuilder.handle_data_array]: the value stored in [elem.text]. *)
Definition handle_data_array (d : doc) (a : attrs) (text : string) : result payload :=
  let* flat := decode_flat d a text in
  finish_shape a flat.

(** The body of the loop of [handle_appended_data], for one registration.
    The element dtype [cbuf] carries no byte-order prefix. *)
Definition resolve_one (d : doc) (raw : list Z) (r : registration)
  : result (nat * list Z) :=
  let '(offset, dtype, el) := r in
  let header_size := calcsize (header_type d) in
  let* datalen := unpack_from (byteorder d) (header_type d) raw offset in
  let* k := buffers_index dtype in
  let* data_bytelen := py_count datalen (calcsize k) in
  let* arr := fromstring_bin native k (py_drop (offset + header_size) raw) data_bytelen in
  Ok (el, arr).

(** The elements' [text] slots. *)
Definition store := nat -> option payload.

Definition set_text (t : store) (i : nat) (p : payload) : store :=
  fun j => if Nat.eqb j i then Some p else t j.

Fixpoint resolve_all (d : doc) (raw : list Z) (regs : list registration) (t : store)
  : result store :=
  match regs with
  | [] => Ok t
  | r :: regs' =>
      let* res := resolve_one d raw r in
      resolve_all d raw regs' (set_text t (fst res) (Flat (snd res)))
  end.

(** [VTKTreeBuilder.handle_appended_data] *)
Definition handle_appended_data (d : doc) (text : string) (regs : list registration)
  (t : store) : result store :=
  let* raw_data := b64decode text in
  resolve_all d raw_data regs t.

(** ** The builder callbacks *)

Record builder := {
  vtk : option doc;
  appended_data_arrays : list registration;
  elems : list (string * attrs);
  elem : nat;
  array_data : string;
  texts : store
}.

Definition need_doc (b : builder) : result doc :=
  match vtk b with
  | Some d => Ok d
  | None => Err (AttributeError "byteorder")
  end.

Definition elem_tag (b : builder) : string :=
  match nth_error (elems b) (elem b) with
  | Some (tag, _) => tag
  | None => ""
  end.

Definition elem_attrs (b : builder) : attrs :=
  match nth_error (elems b) (elem b) with
  | Some (_, a) => a
  | None => []
  end.

(** [VTKTreeBuilder.start] *)
Definition start (b : builder) (tag : string) (a : attrs) : result builder :=
  let el := List.length (elems b) in
  let b' := {| vtk := vtk b; appended_data_arrays := appended_data_arrays b;
               elems := elems b ++ [(tag, a)]; elem := el; array_data := "";
               texts := texts b |} in
  if String.eqb tag "VTKFile" then
    let* d := start_vtkfile a in
    Ok {| vtk := Some d; appended_data_arrays := appended_data_arrays b';
          elems := elems b'; elem := el; array_data := ""; texts := texts b' |}
  else if String.eqb tag "DataArray" then
    let* regs := start_dataarray (appended_data_arrays b') el a in
    Ok {| vtk := vtk b'; appended_data_arrays := regs; elems := elems b';
          elem := el; array_data := ""; texts := texts b' |}
  else Ok b'.

(** [VTKTreeBuilder.data] *)
Definition data (b : builder) (s : string) : builder :=
  if String.eqb (elem_tag b) "DataArray" || String.eqb (elem_tag b) "AppendedData"
  then {| vtk := vtk b; appended_data_arrays := appended_data_arrays b;
          elems := elems b; elem := elem b; array_data := array_data b ++ s;
          texts := texts b |}
  else b.

Definition with_texts (b : builder) (t : store) : builder :=
  {| vtk := vtk b; appended_data_arrays := appended_data_arrays b;
     elems := elems b; elem := elem b; array_data := ""; texts := t |}.

(** [VTKTreeBuilder.end], with [handle_appended_data] unfolded: it decodes
    the blob (line 129) before it reads [self.byteorder] (line 130). *)
Definition end_ (b : builder) (tag : string) : result builder :=
  if String.eqb tag "DataArray" then
    let* d := need_doc b in
    let* p := handle_data_array d (elem_attrs b) (array_data b) in
    Ok (with_texts b (set_text (texts b) (elem b) p))
  else if String.eqb tag "AppendedData" then
    let* raw_data := b64decode (array_data b) in
    let* d := need_doc b in
    let* t := resolve_all d raw_data (appended_data_arrays b) (texts b) in
    Ok (with_texts b t)
  else Ok (with_texts b (texts b)).

End Decoder.

(** ** [VTKXMLParser.feed]: the raw-segment patcher *)

Module Patcher.

Local Open Scope string_scope.

Definition dq : ascii := ascii_of_nat 34.

(** The text [<AppendedData encoding="raw">]. *)
Definition marker : string :=
  "<AppendedData encoding=" ++ String dq ("raw" ++ String dq ">").

(** [raw_start_pattern] and [raw_end_pattern] (regexes without specials). *)
Definition raw_start : string := marker ++ "_".
Definition raw_end : string := "</AppendedData>".

Fixpoint contains (p s : string) : bool :=
  prefix p s || match s with
                | EmptyString => false
                | String _ s' => contains p s'
                end.

Fixpoint drop_ws (s : string) : string :=
  match s with
  | String c s' => if is_space c then drop_ws s' else s
  | EmptyString => EmptyString
  end.

(** [\s*(?=</AppendedData>)]: the text left after the match. *)
Definition ws_end (r : string) : option string :=
  let r' := drop_ws r in
  if prefix raw_end r' then Some r' else None.

(** The group [( .* )] followed by [\s*] and the lookahead, with a greedy
    [.*] (no newline) and
    backtracking: the group and the text after the match. *)
Fixpoint grp_match (r : string) : option (string * string) :=
  let here := option_map (fun rest => (EmptyString, rest)) (ws_end r) in
  match r with
  | String c r' =>
      if Ascii.eqb c "010"%char then here
      else match grp_match r' with
           | Some (g, rest) => Some (String c g, rest)
           | None => here
           end
  | EmptyString => here
  end.

(** The whole [raw_sub_pattern] at a position just after [marker]
    (the lookbehind). *)
Definition match_at (r : string) : option (string * string) :=
  match drop_ws r with
  | String c r2 => if Ascii.eqb c "_" then grp_match r2 else None
  | EmptyString => None
  end.

Definition after_marker (s : string) : string :=
  substring (String.length marker) (String.length s - String.length marker) s.

(** [raw_sub_pattern.search(s)] *)
Fixpoint search_raw (s : string) : bool :=
  (prefix marker s && match match_at (after_marker s) with
                      | Some _ => true
                      | None => false
                      end)
  || match s with
     | EmptyString => false
     | String _ s' => search_raw s'
     end.

(** [raw_sub_pattern.sub(lambda x: base64.b64encode(x.group(1)), s)] *)
Fixpoint sub_raw_fuel (fuel : nat) (s : string) : string :=
  match fuel with
  | O => s
  | S f =>
      match s with
      | EmptyString => EmptyString
      | String c s' =>
          if prefix marker s then
            match match_at (after_marker s) with
            | Some (g, rest) =>
                marker ++ b64encode (bytes_of_string g) ++ sub_raw_fuel f rest
            | None => marker ++ sub_raw_fuel f (after_marker s)
            end
          else String c (sub_raw_fuel f s')
      end
  end.

Definition sub_raw (s : string) : string := sub_raw_fuel (S (String.length s)) s.

Record parser := {
  incomplete_raw_tag : bool;
  raw_data : string
}.

Definition init : parser := {| incomplete_raw_tag := false; raw_data := "" |}.

(** [VTKXMLParser.feed]: the new state and what is passed to
    [XMLParser.feed], if anything. *)
Definition feed (p : parser) (data : string) : parser * option string :=
  let inc := if contains raw_start data && negb (contains raw_end data)
             then true else incomplete_raw_tag p in
  if inc then
    let rd := raw_data p ++ data in
    if search_raw rd
    then ({| incomplete_raw_tag := false; raw_data := "" |}, Some (sub_raw rd))
    else ({| incomplete_raw_tag := true; raw_data := rd |}, None)
  else ({| incomplete_raw_tag := inc; raw_data := raw_data p |}, Some (sub_raw data)).

(** The chunks passed on to the XML tokenizer, in order. *)
Fixpoint feed_all (p : parser) (chunks : list string) : list string :=
  match chunks with
  | [] => []
  | c :: cs =>
      let '(p', out) := feed p c in
      match out with
      | Some s => s :: feed_all p' cs
      | None => feed_all p' cs
      end
  end.

End Patcher.

(** * Proofs *)

(** ** Finite checks over bytes and sextets *)

Definition is_byte (b : Z) : Prop := 0 <= b < 256.

Definition zrange (n : nat) : list Z := map Z.of_nat (seq 0 n).

Lemma zrange_spec (n : nat) (P : Z -> bool) (z : Z) :
  forallb P (zrange n) = true -> 0 <= z < Z.of_nat n -> P z = true.
Proof.
  intros Hall Hz. rewrite forallb_forall in Hall. apply Hall.
  unfold zrange. apply in_map_iff. exists (Z.to_nat z). split.
  - apply Z2Nat.id. lia.
  - apply in_seq. lia.
Qed.

Lemma byte_check (P : Z -> bool) (b : Z) :
  forallb P (zrange 256) = true -> is_byte b -> P b = true.
Proof. intros H Hb. apply (zrange_spec 256); [exact H | unfold is_byte in Hb; lia]. Qed.

Lemma byte_check2 (P : Z -> Z -> bool) (x y : Z) :
  forallb (fun x => forallb (fun y => P x y) (zrange 256)) (zrange 256) = true ->
  is_byte x -> is_byte y -> P x y = true.
Proof.
  intros H Hx Hy.
  pose proof (byte_check _ x H Hx) as Hx'. simpl in Hx'.
  exact (byte_check (P x) y Hx' Hy).
Qed.

(** A character the decoding loop reads as data. *)
Definition plain (c : ascii) : bool :=
  negb ((127 <? char_code c) || (char_code c =? 13) || (char_code c =? 10)
        || (char_code c =? 32)) && negb (is_pad c).

Definition good_sextet (v : Z) : bool :=
  plain (char_of_sextet v) && negb (is_space (char_of_sextet v))
  && match sextet_of_char (char_of_sextet v) with
     | Some v' => v' =? v
     | None => false
     end.

Lemma good_sextet_ok (v : Z) : 0 <= v < 64 -> good_sextet v = true.
Proof. intros H. apply (zrange_spec 64); [vm_compute; reflexivity | lia]. Qed.

Lemma sextet_char (v : Z) : 0 <= v < 64 ->
  plain (char_of_sextet v) = true /\ is_space (char_of_sextet v) = false
  /\ sextet_of_char (char_of_sextet v) = Some v.
Proof.
  intros H. pose proof (good_sextet_ok v H) as G. unfold good_sextet in G.
  destruct (plain _), (is_space _); try discriminate.
  destruct (sextet_of_char _) as [v'|]; [|discriminate].
  simpl in G. apply Z.eqb_eq in G. subst. auto.
Qed.

(** ** The decoding loop on data characters *)

Definition dec_byte (lc v : Z) (lb : Z) : Z :=
  Z.land (Z.shiftr (Z.lor (Z.shiftl lc 6) v) lb) 255.
Definition dec_left (lc v : Z) (lb : Z) : Z :=
  Z.land (Z.lor (Z.shiftl lc 6) v) (Z.shiftl 1 lb - 1).

Lemma a2b_data (q lc lb : Z) (acc : list Z) (c : ascii) (s : string) (v : Z) :
  plain c = true -> sextet_of_char c = Some v ->
  a2b_loop q lc lb acc (String c s) =
  if 8 <=? lb + 6
  then a2b_loop (Z.land (q + 1) 3) (dec_left lc v (lb + 6 - 8)) (lb + 6 - 8)
         (dec_byte lc v (lb + 6 - 8) :: acc) s
  else a2b_loop (Z.land (q + 1) 3) (Z.lor (Z.shiftl lc 6) v) (lb + 6) acc s.
Proof.
  intros Hp Hv. unfold plain in Hp. apply andb_prop in Hp as [H1 H2].
  apply negb_true_iff in H1, H2.
  simpl. rewrite H1, H2, Hv. reflexivity.
Qed.

Lemma a2b_char (q lc lb : Z) (acc : list Z) (v : Z) (s : string) :
  0 <= v < 64 ->
  a2b_loop q lc lb acc (String (char_of_sextet v) s) =
  if 8 <=? lb + 6
  then a2b_loop (Z.land (q + 1) 3) (dec_left lc v (lb + 6 - 8)) (lb + 6 - 8)
         (dec_byte lc v (lb + 6 - 8) :: acc) s
  else a2b_loop (Z.land (q + 1) 3) (Z.lor (Z.shiftl lc 6) v) (lb + 6) acc s.
Proof.
  intros H. destruct (sextet_char v H) as (Hp & _ & Hs). apply a2b_data; assumption.
Qed.
Lemma a2b_char_lo (q lc lb : Z) (acc : list Z) (v : Z) (s : string) :
  0 <= v < 64 -> lb + 6 < 8 ->
  a2b_loop q lc lb acc (String (char_of_sextet v) s) =
  a2b_loop (Z.land (q + 1) 3) (Z.lor (Z.shiftl lc 6) v) (lb + 6) acc s.
Proof.
  intros H Hlb. rewrite a2b_char by exact H.
  replace (8 <=? lb + 6) with false by (symmetry; apply Z.leb_gt; lia). reflexivity.
Qed.

Lemma a2b_char_hi (q lc lb : Z) (acc : list Z) (v : Z) (s : string) :
  0 <= v < 64 -> 8 <= lb + 6 ->
  a2b_loop q lc lb acc (String (char_of_sextet v) s) =
  a2b_loop (Z.land (q + 1) 3) (dec_left lc v (lb + 6 - 8)) (lb + 6 - 8)
    (dec_byte lc v (lb + 6 - 8) :: acc) s.
Proof.
  intros H Hlb. rewrite a2b_char by exact H.
  replace (8 <=? lb + 6) with true by (symmetry; apply Z.leb_le; lia). reflexivity.
Qed.

Lemma a2b_loop_state (q lc lb : Z) (acc : list Z) q' lc' lb' acc' (s : string) :
  q = q' -> lc = lc' -> lb = lb' -> acc = acc' ->
  a2b_loop q lc lb acc s = a2b_loop q' lc' lb' acc' s.
Proof. intros; subst; reflexivity. Qed.

Lemma a2b_quad (acc : list Z) (v1 v2 v3 v4 : Z) (s : string) :
  0 <= v1 < 64 -> 0 <= v2 < 64 -> 0 <= v3 < 64 -> 0 <= v4 < 64 ->
  a2b_loop 0 0 0 acc (String (char_of_sextet v1) (String (char_of_sextet v2)
    (String (char_of_sextet v3) (String (char_of_sextet v4) s)))) =
  a2b_loop 0 0 0 (dec_byte (dec_left (dec_left v1 v2 4) v3 2) v4 0
                  :: dec_byte (dec_left v1 v2 4) v3 2 :: dec_byte v1 v2 4 :: acc) s.
Proof.
  intros H1 H2 H3 H4.
  rewrite a2b_char_lo by (exact H1 || lia).
  rewrite a2b_char_hi by (exact H2 || lia).
  rewrite a2b_char_hi by (exact H3 || lia).
  rewrite a2b_char_hi by (exact H4 || lia).
  apply a2b_loop_state; try reflexivity.
  exact (Z.land_0_r _).
Qed.

(** ** Round trip of [b64encode] through the decoding loop *)

Definition pair_check (x y : Z) : bool :=
  (dec_byte (enc1 x) (enc2 x y) 4 =? x)
  && (dec_left (enc1 x) (enc2 x y) 4 =? Z.shiftr y 4)
  && (dec_byte (Z.shiftr x 4) (enc3 x y) 2 =? x)
  && (dec_left (Z.shiftr x 4) (enc3 x y) 2 =? Z.shiftr y 6)
  && (0 <=? enc2 x y) && (enc2 x y <? 64)
  && (0 <=? enc3 x y) && (enc3 x y <? 64).

Definition single_check (x : Z) : bool :=
  (dec_byte (Z.shiftr x 6) (enc4 x) 0 =? x)
  && (dec_byte (Z.shiftr x 4) (Z.shiftl (Z.land x 15) 2) 2 =? x)
  && (dec_byte (enc1 x) (Z.shiftl (Z.land x 3) 4) 4 =? x)
  && (0 <=? enc1 x) && (enc1 x <? 64) && (0 <=? enc4 x) && (enc4 x <? 64)
  && (0 <=? Z.shiftl (Z.land x 15) 2) && (Z.shiftl (Z.land x 15) 2 <? 64)
  && (0 <=? Z.shiftl (Z.land x 3) 4) && (Z.shiftl (Z.land x 3) 4 <? 64).

Lemma pair_check_all (x y : Z) : is_byte x -> is_byte y -> pair_check x y = true.
Proof. apply byte_check2. vm_compute. reflexivity. Qed.

Lemma single_check_all (x : Z) : is_byte x -> single_check x = true.
Proof. apply byte_check. vm_compute. reflexivity. Qed.

Ltac split_checks H :=
  repeat match type of H with
         | _ && _ = true => apply andb_prop in H; destruct H as [H ?]
         end.

Ltac byte_facts :=
  repeat match goal with
         | H : _ = true |- _ =>
             first [ apply Z.eqb_eq in H | apply Z.leb_le in H | apply Z.ltb_lt in H ]
         end.

Lemma a2b_b64encode (bs acc : list Z) :
  Forall is_byte bs -> a2b_loop 0 0 0 acc (b64encode bs) = Ok (rev acc ++ bs).
Proof.
  revert acc. induction bs as [bs IH] using (well_founded_induction
    (Wf_nat.well_founded_ltof _ (@List.length Z))).
  intros acc Hbs.
  destruct bs as [|b1 [|b2 [|b3 rest]]].
  - simpl. rewrite app_nil_r. reflexivity.
  - inversion Hbs as [|? ? Hb1 _]; subst.
    pose proof (single_check_all b1 Hb1) as S1. unfold single_check in S1.
    split_checks S1. byte_facts.
    cbn [b64encode].
    rewrite a2b_char_lo by (lia || split; lia).
    rewrite a2b_char_hi by (lia || split; lia).
    change (Z.lor (Z.shiftl 0 6) (enc1 b1)) with (enc1 b1).
    replace (0 + 6 + 6 - 8) with 4 by reflexivity.
    match goal with H : dec_byte (enc1 b1) _ 4 = b1 |- _ => rewrite H end.
    reflexivity.
  - inversion Hbs as [|? ? Hb1 Hb']; subst. inversion Hb' as [|? ? Hb2 _]; subst.
    pose proof (single_check_all b1 Hb1) as S1. unfold single_check in S1.
    pose proof (single_check_all b2 Hb2) as S2. unfold single_check in S2.
    pose proof (pair_check_all b1 b2 Hb1 Hb2) as P12. unfold pair_check in P12.
    split_checks S1. split_checks S2. split_checks P12. byte_facts.
    cbn [b64encode].
    rewrite a2b_char_lo by (lia || split; lia).
    rewrite a2b_char_hi by (lia || split; lia).
    rewrite a2b_char_hi by (lia || split; lia).
    change (Z.lor (Z.shiftl 0 6) (enc1 b1)) with (enc1 b1).
    replace (0 + 6 + 6 - 8) with 4 by reflexivity.
    replace (4 + 6 - 8) with 2 by reflexivity.
    match goal with H : dec_left (enc1 b1) _ 4 = _ |- _ => rewrite H end.
    match goal with H : dec_byte (enc1 b1) _ 4 = b1 |- _ => rewrite H end.
    match goal with H : dec_byte (Z.shiftr b2 4) (Z.shiftl _ 2) 2 = b2 |- _ => rewrite H end.
    simpl. rewrite <- app_assoc. reflexivity.
  - inversion Hbs as [|? ? Hb1 Hb']; subst. inversion Hb' as [|? ? Hb2 Hb'']; subst.
    inversion Hb'' as [|? ? Hb3 Hrest]; subst.
    pose proof (single_check_all b1 Hb1) as S1. unfold single_check in S1.
    pose proof (single_check_all b3 Hb3) as S3. unfold single_check in S3.
    pose proof (pair_check_all b1 b2 Hb1 Hb2) as P12. unfold pair_check in P12.
    pose proof (pair_check_all b2 b3 Hb2 Hb3) as P23. unfold pair_check in P23.
    split_checks S1. split_checks S3. split_checks P12. split_checks P23. byte_facts.
    cbn [b64encode]. rewrite a2b_quad by lia.
    match goal with H : dec_left (enc1 b1) (enc2 b1 b2) 4 = _ |- _ => rewrite H end.
    match goal with H : dec_left (Z.shiftr b2 4) (enc3 b2 b3) 2 = _ |- _ => rewrite H end.
    match goal with H : dec_byte (enc1 b1) (enc2 b1 b2) 4 = b1 |- _ => rewrite H end.
    match goal with H : dec_byte (Z.shiftr b2 4) (enc3 b2 b3) 2 = b2 |- _ => rewrite H end.
    match goal with H : dec_byte (Z.shiftr b3 6) (enc4 b3) 0 = b3 |- _ => rewrite H end.
    rewrite IH by (unfold ltof; simpl; lia || exact Hrest).
    simpl. rewrite <- !app_assoc. reflexivity.
Qed.

Theorem b64decode_b64encode (bs : list Z) :
  Forall is_byte bs -> b64decode (b64encode bs) = Ok bs.
Proof. intros H. unfold b64decode. rewrite a2b_b64encode by exact H. reflexivity. Qed.

(** ** Text produced by [b64encode] *)

Fixpoint no_space (s : string) : bool :=
  match s with
  | EmptyString => true
  | String c s' => negb (is_space c) && no_space s'
  end.

Lemma no_space_app (a b : string) : no_space (a ++ b) = no_space a && no_space b.
Proof. induction a as [|c a IH]; simpl; [reflexivity|]. rewrite IH, andb_assoc. reflexivity. Qed.

Lemma no_space_forall (s : string) :
  no_space s = true -> Forall (fun c => is_space c = false) (list_ascii_of_string s).
Proof.
  induction s as [|c s IH]; simpl; intros H; constructor.
  - apply andb_prop in H as [H _]. now apply negb_true_iff.
  - apply andb_prop in H as [_ H]. auto.
Qed.

Lemma drop_space_id (l : list ascii) :
  Forall (fun c => is_space c = false) l -> drop_space l = l.
Proof. destruct l as [|c l]; simpl; intros H; [reflexivity|]. inversion H; subst. now rewrite H2. Qed.

Lemma py_strip_id (s : string) : no_space s = true -> py_strip s = s.
Proof.
  intros H. pose proof (no_space_forall s H) as F. unfold py_strip.
  rewrite (drop_space_id _ F).
  rewrite (drop_space_id (rev (list_ascii_of_string s))) by (apply Forall_rev; exact F).
  rewrite rev_involutive. apply string_of_list_ascii_of_string.
Qed.

Lemma b64encode_no_space (bs : list Z) : Forall is_byte bs -> no_space (b64encode bs) = true.
Proof.
  assert (Hc : forall v, 0 <= v < 64 -> is_space (char_of_sextet v) = false)
    by (intros v Hv; apply (sextet_char v Hv)).
  induction bs as [bs IH] using (well_founded_induction
    (Wf_nat.well_founded_ltof _ (@List.length Z))).
  intros Hbs.
  destruct bs as [|b1 [|b2 [|b3 rest]]]; [reflexivity| | |].
  - inversion Hbs as [|? ? Hb1 _]; subst.
    pose proof (single_check_all b1 Hb1) as S1. unfold single_check in S1.
    split_checks S1. byte_facts. cbn [b64encode no_space].
    rewrite !Hc by lia. reflexivity.
  - inversion Hbs as [|? ? Hb1 Hb']; subst. inversion Hb' as [|? ? Hb2 _]; subst.
    pose proof (single_check_all b1 Hb1) as S1. unfold single_check in S1.
    pose proof (single_check_all b2 Hb2) as S2. unfold single_check in S2.
    pose proof (pair_check_all b1 b2 Hb1 Hb2) as P12. unfold pair_check in P12.
    split_checks S1. split_checks S2. split_checks P12. byte_facts.
    cbn [b64encode no_space]. rewrite !Hc by lia. reflexivity.
  - inversion Hbs as [|? ? Hb1 Hb']; subst. inversion Hb' as [|? ? Hb2 Hb'']; subst.
    inversion Hb'' as [|? ? Hb3 Hrest]; subst.
    pose proof (single_check_all b1 Hb1) as S1. unfold single_check in S1.
    pose proof (single_check_all b3 Hb3) as S3. unfold single_check in S3.
    pose proof (pair_check_all b1 b2 Hb1 Hb2) as P12. unfold pair_check in P12.
    pose proof (pair_check_all b2 b3 Hb2 Hb3) as P23. unfold pair_check in P23.
    split_checks S1. split_checks S3. split_checks P12. split_checks P23. byte_facts.
    cbn [b64encode no_space]. rewrite !Hc by lia. simpl.
    apply IH; [unfold ltof; simpl; lia | exact Hrest].
Qed.

Lemma b64encode_length (bs bs' : list Z) :
  List.length bs = List.length bs' ->
  String.length (b64encode bs) = String.length (b64encode bs').
Proof.
  revert bs'. induction bs as [bs IH] using (well_founded_induction
    (Wf_nat.well_founded_ltof _ (@List.length Z))).
  intros bs' Hl.
  destruct bs as [|b1 [|b2 [|b3 rest]]], bs' as [|c1 [|c2 [|c3 rest']]];
    simpl in Hl; try discriminate; try reflexivity.
  cbn [b64encode String.length]. rewrite (IH rest) with (bs' := rest');
    [reflexivity | unfold ltof; simpl; lia | lia].
Qed.

(** ** Slicing a concatenation at the seam *)

Lemma length_append (a b : string) :
  String.length (a ++ b) = (String.length a + String.length b)%nat.
Proof. induction a as [|c a IH]; simpl; [reflexivity|]. now rewrite IH. Qed.

Lemma substring_all (s : string) : substring 0 (String.length s) s = s.
Proof. induction s as [|c s IH]; simpl; [reflexivity|]. now rewrite IH. Qed.

Lemma py_slice_to_app (a b : string) : py_slice_to (String.length a) (a ++ b) = a.
Proof.
  unfold py_slice_to. induction a as [|c a IH]; simpl.
  - destruct b; reflexivity.
  - now rewrite IH.
Qed.

Lemma py_slice_from_app (a b : string) : py_slice_from (String.length a) (a ++ b) = b.
Proof.
  unfold py_slice_from. rewrite length_append.
  replace (String.length a + String.length b - String.length a)%nat
    with (String.length b) by lia.
  induction a as [|c a IH]; simpl; [apply substring_all | exact IH].
Qed.

(** ** [struct] round trips *)

Lemma pack_le_length (w : nat) (v : Z) : List.length (pack_le w v) = w.
Proof. revert v. induction w as [|w IH]; intros v; simpl; [reflexivity|]. now rewrite IH. Qed.

Lemma pack_le_bytes (w : nat) (v : Z) : Forall is_byte (pack_le w v).
Proof.
  revert v. induction w as [|w IH]; intros v; simpl; constructor; [|apply IH].
  unfold is_byte. apply Z.mod_pos_bound. lia.
Qed.

Lemma unpack_pack_le (w : nat) (v : Z) : unpack_le (pack_le w v) = v mod 256 ^ Z.of_nat w.
Proof.
  revert v. induction w as [|w IH]; intros v; simpl unpack_le.
  - simpl. now rewrite Z.mod_1_r.
  - rewrite IH, Nat2Z.inj_succ, Z.pow_succ_r by lia.
    rewrite Z.rem_mul_r by (try apply Z.pow_pos_nonneg; lia). reflexivity.
Qed.

Lemma order_bytes_involutive (e : endian) (bs : list Z) :
  order_bytes e (order_bytes e bs) = bs.
Proof. destruct e; simpl; [reflexivity | apply rev_involutive]. Qed.

Lemma pack_length (e : endian) (k : kind) (v : Z) : List.length (pack e k v) = width k.
Proof. unfold pack. destruct e; simpl; rewrite ?length_rev; apply pack_le_length. Qed.

Lemma pack_bytes (e : endian) (k : kind) (v : Z) : Forall is_byte (pack e k v).
Proof. unfold pack. destruct e; simpl; [|apply Forall_rev]; apply pack_le_bytes. Qed.

(** Evaluates the powers of two and of 256 that fix the kinds' ranges. *)
Ltac norm_consts :=
  repeat match goal with
         | H : context [Z.pow ?a ?b] |- _ =>
             let c := eval vm_compute in (Z.pow a b) in change (Z.pow a b) with c in H
         | |- context [Z.pow ?a ?b] =>
             let c := eval vm_compute in (Z.pow a b) in change (Z.pow a b) with c
         | H : context [Z.pow_pos ?a ?b] |- _ =>
             let c := eval vm_compute in (Z.pow_pos a b) in change (Z.pow_pos a b) with c in H
         | |- context [Z.pow_pos ?a ?b] =>
             let c := eval vm_compute in (Z.pow_pos a b) in change (Z.pow_pos a b) with c
         end.

Lemma unpack_value_pack (e : endian) (k : kind) (v : Z) :
  in_range k v -> unpack_value e k (pack e k v) = v.
Proof.
  unfold in_range, unpack_value, pack. rewrite order_bytes_involutive, unpack_pack_le.
  destruct k; cbv [is_signed calcsize width andb] in *; simpl Z.of_nat in *;
    simpl Z.mul in *; simpl Z.sub in *; intros H; norm_consts;
    try (destruct (_ <=? _) eqn:E; [apply Z.leb_le in E | apply Z.leb_gt in E]);
    Z.div_mod_to_equations; lia.
Qed.

Lemma concat_pack_length (e : endian) (k : kind) (xs : list Z) :
  List.length (List.concat (map (pack e k) xs)) = (List.length xs * width k)%nat.
Proof.
  induction xs as [|x xs IH]; simpl; [reflexivity|].
  rewrite length_app, pack_length, IH. reflexivity.
Qed.

Lemma concat_pack_bytes (e : endian) (k : kind) (xs : list Z) :
  Forall is_byte (List.concat (map (pack e k) xs)).
Proof.
  induction xs as [|x xs IH]; simpl; [constructor|].
  apply Forall_app. split; [apply pack_bytes | exact IH].
Qed.

Lemma read_elems_pack (e : endian) (k : kind) (xs : list Z) :
  Forall (in_range k) xs ->
  read_elems e k (List.length xs) (List.concat (map (pack e k) xs)) = xs.
Proof.
  induction xs as [|x xs IH]; intros H; simpl; [reflexivity|].
  inversion H; subst.
  rewrite firstn_app, skipn_app, pack_length, Nat.sub_diag, firstn_O, skipn_O, app_nil_r.
  rewrite <- (pack_length e k x), firstn_all, skipn_all.
  rewrite unpack_value_pack by assumption. simpl. rewrite IH by assumption. reflexivity.
Qed.

Lemma fromstring_bin_pack (e : endian) (k : kind) (xs : list Z) :
  Forall (in_range k) xs ->
  fromstring_bin e k (List.concat (map (pack e k) xs)) (Z.of_nat (List.length xs)) = Ok xs.
Proof.
  intros H. unfold fromstring_bin. rewrite concat_pack_length.
  replace (Z.of_nat (List.length xs) <? 0) with false by (symmetry; apply Z.ltb_ge; lia).
  replace (Z.of_nat (List.length xs * width k) <? Z.of_nat (List.length xs) * calcsize k)
    with false by (symmetry; apply Z.ltb_ge; unfold calcsize; lia).
  rewrite Nat2Z.id. rewrite read_elems_pack by exact H. reflexivity.
Qed.

Lemma unpack_from_pack (e : endian) (k : kind) (v : Z) :
  is_float k = false -> in_range k v -> unpack_from e k (pack e k v) 0 = Ok (PInt v).
Proof.
  intros Hf Hr. unfold unpack_from. rewrite pack_length. simpl Z.ltb.
  replace (Z.of_nat (width k) - 0 <? calcsize k) with false
    by (symmetry; apply Z.ltb_ge; unfold calcsize; lia).
  simpl orb. cbv iota. simpl skipn. rewrite <- (pack_length e k v), firstn_all.
  unfold unpack_num. rewrite Hf, unpack_value_pack by exact Hr. reflexivity.
Qed.

Lemma buffers_kind_name (k : kind) : buffers (kind_name k) = Some k.
Proof. destruct k; reflexivity. Qed.

Lemma calcsize_pos (k : kind) : 0 < calcsize k.
Proof. destruct k; unfold calcsize; simpl; lia. Qed.

(** ** The binary layouts, as a writer lays them out *)

(** Version 0.1: the length header and the content base64-encoded apart. *)
Definition encode_split (d : doc) (k : kind) (xs : list Z) : string :=
  b64encode (pack (byteorder d) (header_type d) (Z.of_nat (List.length xs) * calcsize k))
  ++ b64encode (List.concat (map (pack (byteorder d) k) xs)).

(** Version 1.0: the length header and the content base64-encoded together. *)
Definition encode_combined (d : doc) (k : kind) (xs : list Z) : string :=
  b64encode (pack (byteorder d) (header_type d) (Z.of_nat (List.length xs) * calcsize k)
             ++ List.concat (map (pack (byteorder d) k) xs)).

(** ** C5: the split-header round trip *)

(** Claim C5: in a version "0.1" document, a binary DataArray whose text is
    the separately base64-encoded length header (of any integer header type
    that can hold the byte length) followed by the base64-encoded content
    decodes to exactly the array, for either byte order and every numeric
    kind; the number of header characters the decoder takes, computed by
    encoding a zero header, is the length of the encoded header. *)
Theorem split_header_roundtrip (native : endian) (float_count : kind -> Z -> Z -> result Z)
  (fromstr : kind -> list ascii -> option (Z * list ascii))
  (d : doc) (a : attrs) (k : kind) (xs : list Z) :
  split_header d = true ->
  is_float (header_type d) = false ->
  in_range (header_type d) (Z.of_nat (List.length xs) * calcsize k) ->
  Forall (in_range k) xs ->
  attr_get "type" a = Some (kind_name k) ->
  attr_get "format" a = Some "binary"%string ->
  attr_get "NumberOfComponents" a = None ->
  String.length (b64encode (pack (byteorder d) (header_type d) 0))
  = String.length (b64encode (pack (byteorder d) (header_type d)
                                (Z.of_nat (List.length xs) * calcsize k)))
  /\ handle_data_array native float_count fromstr d a (encode_split d k xs) = Ok (Flat xs).
Proof.
  intros Hsplit Hhf Hhr Hxs Htype Hfmt Hnc.
  set (L := Z.of_nat (List.length xs) * calcsize k).
  assert (Hlen : String.length (b64encode (pack (byteorder d) (header_type d) 0))
                 = String.length (b64encode (pack (byteorder d) (header_type d) L)))
    by (apply b64encode_length; rewrite !pack_length; reflexivity).
  split; [exact Hlen|].
  unfold handle_data_array, decode_flat, encode_split.
  unfold attr_index. rewrite Htype. cbn [bind].
  unfold buffers_index. rewrite buffers_kind_name. cbn [bind].
  rewrite Hfmt. cbn [bind String.eqb Ascii.eqb Bool.eqb].
  rewrite py_strip_id
    by (rewrite no_space_app, !b64encode_no_space
          by (apply pack_bytes || apply concat_pack_bytes); reflexivity).
  fold L. rewrite Hlen, py_slice_to_app, py_slice_from_app.
  rewrite b64decode_b64encode by apply pack_bytes. cbn [bind].
  rewrite unpack_from_pack by assumption. cbn [bind].
  rewrite Hsplit.
  rewrite b64decode_b64encode by apply concat_pack_bytes. cbn [bind py_count].
  unfold L. rewrite Z.div_mul by (pose proof (calcsize_pos k); lia).
  rewrite fromstring_bin_pack by exact Hxs. cbn [bind].
  unfold finish_shape, ncomp_of. rewrite Hnc. reflexivity.
Qed.

(** ** C1: the combined-header branch *)

(** The one-byte-order-per-document header used in the examples below. *)
Definition doc_v1 (e : endian) : doc :=
  {| split_header := false; byteorder := e; header_type := UInt32 |}.
Definition doc_v01 (e : endian) : doc :=
  {| split_header := true; byteorder := e; header_type := UInt32 |}.

Definition binary_int16 : attrs := [("type", "Int16"); ("format", "binary")]%string.

(** Whatever the text, a binary DataArray of a version 1.0 document never
    gets a value: the branch reads the unassigned local [array_data]. *)
Lemma combined_header_never_decodes (native : endian) (float_count : kind -> Z -> Z -> result Z)
  (fromstr : kind -> list ascii -> option (Z * list ascii)) (d : doc) (a : attrs) (text : string) :
  split_header d = false -> attr_get "format" a = Some "binary"%string ->
  exists e, handle_data_array native float_count fromstr d a text = Err e.
Proof.
  intros Hs Hf. unfold handle_data_array, decode_flat, attr_index. rewrite Hf.
  destruct (attr_get "type" a) as [t|]; [|eexists; reflexivity]. cbn [bind].
  unfold buffers_index. destruct (buffers t) as [k|]; [|eexists; reflexivity].
  cbn [bind String.eqb Ascii.eqb Bool.eqb].
  destruct (b64decode _) as [hdr|e]; [|eexists; reflexivity]. cbn [bind].
  destruct (unpack_from _ _ _ _) as [n|e]; [|eexists; reflexivity]. cbn [bind].
  rewrite Hs. eexists; reflexivity.
Qed.

(** Claim C1 (failing input): the array [1; -2] of kind Int16, written in the
    combined layout of a version "1.0" document, in either byte order: the
    decoder raises [UnboundLocalError] instead of returning the array. *)
Theorem combined_header_roundtrip_fails :
  handle_data_array Little (fun _ _ _ => Ok 0) (fun _ _ => None) (doc_v1 Little) binary_int16
    (encode_combined (doc_v1 Little) Int16 [1; -2])
  = Err (UnboundLocalError "array_data")
  /\ handle_data_array Little (fun _ _ _ => Ok 0) (fun _ _ => None) (doc_v1 Big) binary_int16
    (encode_combined (doc_v1 Big) Int16 [1; -2])
  = Err (UnboundLocalError "array_data").
Proof. split; vm_compute; reflexivity. Qed.

(** ** C6: reshape *)

Lemma rows_of_spec (c n : nat) (xs : list Z) :
  List.length xs = (c * n)%nat ->
  List.length (rows_of c n xs) = n
  /\ Forall (fun r => List.length r = c) (rows_of c n xs)
  /\ List.concat (rows_of c n xs) = xs.
Proof.
  revert xs. induction n as [|n IH]; intros xs Hl; simpl.
  - repeat split; [constructor|]. destruct xs; [reflexivity | simpl in Hl; lia].
  - destruct (IH (skipn c xs)) as (H1 & H2 & H3); [rewrite length_skipn; lia|].
    repeat split.
    + now rewrite H1.
    + constructor; [rewrite length_firstn; lia | exact H2].
    + rewrite H3. apply firstn_skipn.
Qed.

(** Claim C6: when the flat decode of a DataArray gives [xs] and
    [NumberOfComponents] is [C > 1], the stored value has [len xs / C] rows of
    [C] elements whose row-major concatenation is [xs] if [C] divides the
    length, and decoding raises the reshape [ValueError] otherwise. *)
Theorem reshape_rows (native : endian) (float_count : kind -> Z -> Z -> result Z)
  (fromstr : kind -> list ascii -> option (Z * list ascii))
  (d : doc) (a : attrs) (text : string) (xs : list Z) (C : Z) :
  decode_flat native float_count fromstr d a text = Ok xs ->
  ncomp_of a = Ok C -> 1 < C ->
  (Z.of_nat (List.length xs) mod C = 0 ->
   exists rs, handle_data_array native float_count fromstr d a text = Ok (Rows rs)
     /\ Z.of_nat (List.length rs) = Z.of_nat (List.length xs) / C
     /\ Forall (fun r => Z.of_nat (List.length r) = C) rs
     /\ List.concat rs = xs)
  /\ (Z.of_nat (List.length xs) mod C <> 0 ->
      handle_data_array native float_count fromstr d a text = Err (ValueError reshape_msg)).
Proof.
  intros Hflat Hnc HC. unfold handle_data_array. rewrite Hflat. cbn [bind].
  unfold finish_shape. rewrite Hnc. cbn [bind].
  replace (1 <? C) with true by (symmetry; apply Z.ltb_lt; exact HC).
  unfold reshape. split.
  - intros Hdiv. rewrite (proj2 (Z.eqb_eq _ _) Hdiv).
    eexists; split; [reflexivity|].
    set (n := Z.of_nat (List.length xs) / C).
    assert (Hxs : Z.of_nat (List.length xs) = C * n)
      by (unfold n; apply Z.div_exact; lia).
    assert (Hn : 0 <= n) by (unfold n; apply Z.div_pos; lia).
    destruct (rows_of_spec (Z.to_nat C) (Z.to_nat n) xs) as (H1 & H2 & H3); [lia|].
    repeat split.
    + rewrite H1. lia.
    + eapply Forall_impl; [|exact H2]. intros r Hr. simpl in Hr. lia.
    + exact H3.
  - intros Hnd. rewrite (proj2 (Z.eqb_neq _ _) Hnd). reflexivity.
Qed.

(** ** C4: closing an appended DataArray *)

Definition empty_store : store := fun _ => None.

Definition empty_builder : builder :=
  {| vtk := None; appended_data_arrays := []; elems := []; elem := 0;
     array_data := ""; texts := empty_store |}.

Definition vtkfile_le : attrs :=
  [("version", "1.0"); ("byte_order", "LittleEndian")]%string.

Definition appended_uint8 : attrs :=
  [("type", "UInt8"); ("format", "appended"); ("offset", "0")]%string.

(** Open a VTKFile and an appended DataArray (element 1), then close it. *)
Definition close_appended_array (native : endian) (float_count : kind -> Z -> Z -> result Z)
  (fromstr : kind -> list ascii -> option (Z * list ascii)) : result builder :=
  let* b1 := start empty_builder "VTKFile" vtkfile_le in
  let* b2 := start b1 "DataArray" appended_uint8 in
  end_ native float_count fromstr b2 "DataArray".

(** Claim C4 (counterexample): closing an appended DataArray with no text
    writes an empty array into its slot, which held nothing before. *)
Lemma appended_close_writes_slot :
  exists b, close_appended_array Little (fun _ _ _ => Ok 0) (fun _ _ => None) = Ok b
    /\ texts empty_builder 1%nat = None /\ texts b 1%nat = Some (Flat []).
Proof. eexists. split; [vm_compute; reflexivity | split; reflexivity]. Qed.

Lemma resolve_one_elem (native : endian) (float_count : kind -> Z -> Z -> result Z) (d : doc)
  (raw : list Z) (r : registration) (res : nat * list Z) :
  resolve_one native float_count d raw r = Ok res -> fst res = snd r.
Proof.
  destruct r as [[off dt] el]. unfold resolve_one. intros E.
  destruct (unpack_from _ _ _ _); [|discriminate]. cbn [bind] in E.
  destruct (buffers_index dt); [|discriminate]. cbn [bind] in E.
  destruct (py_count _ _ _); [|discriminate]. cbn [bind] in E.
  destruct (fromstring_bin _ _ _ _); [|discriminate]. cbn [bind] in E.
  injection E as <-. reflexivity.
Qed.

Lemma resolve_all_frame (native : endian) (float_count : kind -> Z -> Z -> result Z)
  (d : doc) (raw : list Z) (regs : list registration) (t t' : store) :
  resolve_all native float_count d raw regs t = Ok t' ->
  forall j, ~ In j (map snd regs) -> t' j = t j.
Proof.
  revert t. induction regs as [|r regs IH]; intros t H j Hj; simpl in H.
  - injection H as <-. reflexivity.
  - destruct (resolve_one native float_count d raw r) as [res|e] eqn:E;
      cbn [bind] in H; [|discriminate].
    rewrite (IH _ H j) by (intros Hin; apply Hj; right; exact Hin).
    unfold set_text. rewrite (resolve_one_elem _ _ _ _ _ _ E).
    destruct (Nat.eqb_spec j (snd r)) as [->|]; [exfalso; apply Hj; left; reflexivity|].
    reflexivity.
Qed.

(** The slot of the last registration of an element holds the array that
    registration reads. *)
Lemma resolve_all_last (native : endian) (float_count : kind -> Z -> Z -> result Z)
  (d : doc) (raw : list Z) (pre post : list registration) (r : registration)
  (t t' : store) :
  resolve_all native float_count d raw (pre ++ r :: post) t = Ok t' ->
  ~ In (snd r) (map snd post) ->
  exists arr, resolve_one native float_count d raw r = Ok (snd r, arr)
    /\ t' (snd r) = Some (Flat arr).
Proof.
  revert t. induction pre as [|r0 pre IH]; intros t H Hnot; simpl in H.
  - destruct (resolve_one native float_count d raw r) as [[el arr]|e] eqn:E;
      cbn [bind fst snd] in H; [|discriminate].
    pose proof (resolve_one_elem _ _ _ _ _ _ E) as Hel. simpl in Hel. subst el.
    exists arr. split; [reflexivity|].
    rewrite (resolve_all_frame _ _ _ _ _ _ _ H _ Hnot).
    unfold set_text. now rewrite Nat.eqb_refl.
  - destruct (resolve_one native float_count d raw r0) as [res|e];
      cbn [bind] in H; [exact (IH _ H Hnot) | discriminate].
Qed.

(** Claim C4 (amended): at its close event an appended DataArray goes
    through the ascii branch: the value stored in its slot is the
    whitespace-separated parse of its own text (empty for an element with no
    text, as numpy's parsers read nothing from an empty text), reshaped by
    [NumberOfComponents]; when AppendedData closes, the resolver overwrites
    the slot of each registered element with the array its registration
    reads from the blob. *)
Theorem appended_close_then_overwrite (native : endian)
  (float_count : kind -> Z -> Z -> result Z)
  (fromstr : kind -> list ascii -> option (Z * list ascii))
  (b : builder) (d : doc) (tname : string) (k : kind) :
  vtk b = Some d ->
  attr_get "type" (elem_attrs b) = Some tname -> buffers tname = Some k ->
  attr_get "format" (elem_attrs b) = Some "appended"%string ->
  end_ native float_count fromstr b "DataArray"
    = (let* p := finish_shape (elem_attrs b)
                   (fromstring_sep native fromstr (byteorder d) k (array_data b)) in
       Ok (with_texts b (set_text (texts b) (elem b) p)))
  /\ (fromstr k [] = None -> fromstring_sep native fromstr (byteorder d) k "" = [])
  /\ (forall b0 b', end_ native float_count fromstr b0 "AppendedData" = Ok b' ->
        exists d0 raw, vtk b0 = Some d0 /\ b64decode (array_data b0) = Ok raw
          /\ forall pre r post, appended_data_arrays b0 = pre ++ r :: post ->
               ~ In (snd r) (map snd post) ->
               exists arr, resolve_one native float_count d0 raw r = Ok (snd r, arr)
                 /\ texts b' (snd r) = Some (Flat arr)).
Proof.
  intros Hd Ht Hk Hf. split; [|split].
  - unfold end_. cbn [String.eqb Ascii.eqb Bool.eqb].
    unfold need_doc. rewrite Hd. cbn [bind].
    unfold handle_data_array, decode_flat, attr_index, buffers_index.
    rewrite Ht. cbn [bind]. rewrite Hk. cbn [bind]. rewrite Hf. reflexivity.
  - intros H0. unfold fromstring_sep. simpl. rewrite H0. reflexivity.
  - intros b0 b' H. unfold end_ in H. cbn [String.eqb Ascii.eqb Bool.eqb] in H.
    destruct (b64decode (array_data b0)) as [raw|e]; cbn [bind] in H; [|discriminate].
    unfold need_doc in H. destruct (vtk b0) as [d0|]; cbn [bind] in H; [|discriminate].
    destruct (resolve_all native float_count d0 raw (appended_data_arrays b0) (texts b0))
      as [t|e] eqn:E; cbn [bind] in H; [|discriminate].
    injection H as <-. exists d0, raw. split; [reflexivity|]. split; [reflexivity|].
    intros pre r post Hq Hnot. rewrite Hq in E.
    exact (resolve_all_last _ _ _ _ _ _ _ _ _ E Hnot).
Qed.


(** ** C7: reads past the end of the appended blob *)

(** The failures of a read that runs past the blob: [struct.error] from the
    header read, numpy's [ValueError] from the element read, and, for an
    offset or an element count too large for a C [Py_ssize_t] (or whose byte
    size is), the [OverflowError] of the conversion or numpy's "array is too
    big" [ValueError]. *)
Definition OffsetError (e : exc) : Prop :=
  e = StructError unpack_from_msg \/ e = ValueError smaller_msg
  \/ e = OverflowError ssize_msg \/ e = ValueError too_big_msg.

(** The header read of a registration, or the read of the elements the
    header announces, runs past the end of the blob.  (A float header whose
    value is infinite or NaN announces no length: [int] fails on it before
    any element is read.) *)
Definition read_past_end (float_count : kind -> Z -> Z -> result Z) (d : doc)
  (raw : list Z) (r : registration) : bool :=
  let '(offset, dtype, _) := r in
  let len := Z.of_nat (List.length raw) in
  let hs := calcsize (header_type d) in
  (len <? offset + hs)
  || match unpack_from (byteorder d) (header_type d) raw offset, buffers dtype with
     | Ok n, Some k =>
         match py_count float_count n (calcsize k) with
         | Ok count => (0 <=? count) && (len <? offset + hs + count * calcsize k)
         | Err _ => false
         end
     | _, _ => false
     end.

Lemma py_drop_length {A} (i : Z) (xs : list A) :
  0 <= i <= Z.of_nat (List.length xs) ->
  Z.of_nat (List.length (py_drop i xs)) = Z.of_nat (List.length xs) - i.
Proof.
  intros H. unfold py_drop.
  replace (i <? 0) with false by (symmetry; apply Z.ltb_ge; lia).
  rewrite Z.min_l by lia. rewrite length_skipn. lia.
Qed.

Lemma unpack_from_short (e : endian) (k : kind) (buf : list Z) (offset : Z) :
  0 <= offset -> Z.of_nat (List.length buf) < offset + calcsize k ->
  exists err, unpack_from e k buf offset = Err err /\ OffsetError err.
Proof.
  intros H0 H. unfold unpack_from.
  replace (offset <? 0) with false by (symmetry; apply Z.ltb_ge; lia).
  replace (Z.of_nat (List.length buf) - offset <? calcsize k) with true
    by (symmetry; apply Z.ltb_lt; lia).
  rewrite orb_true_r. unfold OffsetError.
  destruct (fits_ssize offset); eexists; split; try reflexivity; tauto.
Qed.

Lemma fromstring_bin_short (e : endian) (k : kind) (buf : list Z) (count : Z) :
  0 <= count -> Z.of_nat (List.length buf) < count * calcsize k ->
  exists err, fromstring_bin e k buf count = Err err /\ OffsetError err.
Proof.
  intros H0 H. unfold fromstring_bin.
  replace (count <? 0) with false by (symmetry; apply Z.ltb_ge; lia).
  replace (Z.of_nat (List.length buf) <? count * calcsize k) with true
    by (symmetry; apply Z.ltb_lt; lia).
  unfold OffsetError.
  destruct (negb (fits_ssize count)); [|destruct (_ <? wrap_intp _)];
    eexists; split; try reflexivity; tauto.
Qed.

Lemma resolve_one_past_end (native : endian) (float_count : kind -> Z -> Z -> result Z)
  (d : doc) (raw : list Z) (r : registration) :
  0 <= fst (fst r) -> read_past_end float_count d raw r = true ->
  exists e, resolve_one native float_count d raw r = Err e /\ OffsetError e.
Proof.
  destruct r as [[off dt] el]. simpl fst. intros Hoff H.
  unfold read_past_end in H. unfold resolve_one.
  pose proof (calcsize_pos (header_type d)) as Hhs.
  destruct (Z.of_nat (List.length raw) <? off + calcsize (header_type d)) eqn:Eh.
  - apply Z.ltb_lt in Eh.
    destruct (unpack_from_short (byteorder d) (header_type d) raw off Hoff Eh)
      as (e & -> & He).
    exists e. split; [reflexivity | exact He].
  - apply Z.ltb_ge in Eh. simpl in H.
    destruct (unpack_from (byteorder d) (header_type d) raw off) as [n|e]; [|discriminate].
    destruct (buffers dt) as [k|] eqn:Ek; [|discriminate].
    destruct (py_count float_count n (calcsize k)) as [count|e] eqn:Ec; [|discriminate].
    apply andb_prop in H as [H1 H2]. apply Z.leb_le in H1. apply Z.ltb_lt in H2.
    cbn [bind]. unfold buffers_index. rewrite Ek. cbn [bind]. rewrite Ec. cbn [bind].
    destruct (fromstring_bin_short native k
                (py_drop (off + calcsize (header_type d)) raw) count H1)
      as (e & He & Hoe).
    { rewrite py_drop_length by lia. lia. }
    rewrite He. exists e. split; [reflexivity | exact Hoe].
Qed.

(** Claim C7: a registration (with a non-negative offset) whose header read
    or element read runs past the end of the decoded blob fails with an
    out-of-bounds error, and then so does the whole resolution. *)
Theorem appended_offset_past_end (native : endian) (float_count : kind -> Z -> Z -> result Z)
  (d : doc) (raw : list Z) (r : registration) :
  0 <= fst (fst r) -> read_past_end float_count d raw r = true ->
  (exists e, resolve_one native float_count d raw r = Err e /\ OffsetError e)
  /\ (forall regs t, In r regs -> exists e, resolve_all native float_count d raw regs t = Err e).
Proof.
  intros Hoff H. destruct (resolve_one_past_end native float_count d raw r Hoff H)
    as (e & He & Hoe).
  split; [exists e; split; assumption|].
  intros regs. induction regs as [|r' regs IH]; intros t Hin; [destruct Hin|].
  simpl. destruct Hin as [<-|Hin].
  - rewrite He. exists e. reflexivity.
  - destruct (resolve_one native float_count d raw r') as [res|e'];
      cbn [bind]; [apply IH; exact Hin | exists e'; reflexivity].
Qed.

(** ** C8: the VTKFile attributes *)

(** The [ValueError]s the [VTKFile] branch raises itself. *)
Definition ConfigurationError (e : exc) : Prop :=
  e = ValueError missing_version_msg \/ exists bo, e = ValueError (unknown_byteorder_msg bo).

(** Claim C8: the VTKFile start event raises a configuration error exactly
    when [version] is absent or [byte_order] has a value other than
    LittleEndian and BigEndian; a successful start selects the split layout
    exactly for version "0.1". *)
Theorem vtkfile_configuration_error (a : attrs) :
  ((exists e, start_vtkfile a = Err e /\ ConfigurationError e)
   <-> (attr_get "version" a = None
        \/ exists bo, attr_get "byte_order" a = Some bo /\ byteorders bo = None))
  /\ (forall v dd, attr_get "version" a = Some v -> start_vtkfile a = Ok dd ->
        split_header dd = String.eqb v "0.1").
Proof.
  unfold start_vtkfile. split; [split|].
  - intros (e & He & Hc).
    destruct (attr_get "version" a) as [v|]; [right|left; reflexivity].
    destruct (attr_get "byte_order" a) as [bo|].
    + exists bo. split; [reflexivity|].
      destruct (byteorders bo); [discriminate | reflexivity].
    + injection He as <-. destruct Hc as [Hc|[bo Hc]]; discriminate.
  - intros [Hv|(bo & Hb & Hbo)].
    + rewrite Hv. exists (ValueError missing_version_msg). split; [reflexivity|left; reflexivity].
    + destruct (attr_get "version" a) as [v|].
      * rewrite Hb, Hbo. exists (ValueError (unknown_byteorder_msg bo)).
        split; [reflexivity | right; exists bo; reflexivity].
      * exists (ValueError missing_version_msg). split; [reflexivity|left; reflexivity].
  - intros v dd Hv H. rewrite Hv in H.
    destruct (attr_get "byte_order" a) as [bo|]; [|discriminate].
    destruct (byteorders bo); [|discriminate].
    injection H as <-. reflexivity.
Qed.

(** ** C9: the DataArray format *)

(** The [ValueError] the [DataArray] branch raises for an unknown format. *)
Definition FormatError (e : exc) : Prop := exists f, e = ValueError (format_msg f).

(** Claim C9: the DataArray start event raises the format error exactly
    when the [format] attribute is present with a value other than ascii,
    binary and appended. *)
Theorem dataarray_format_error (regs : list registration) (el : nat) (a : attrs) :
  (exists e, start_dataarray regs el a = Err e /\ FormatError e)
  <-> (exists f, attr_get "format" a = Some f
        /\ f <> "ascii"%string /\ f <> "binary"%string /\ f <> "appended"%string).
Proof.
  unfold start_dataarray, attr_index. split.
  - intros (e & He & f' & ->).
    destruct (attr_get "format" a) as [f|]; [|discriminate]. cbn [bind] in He.
    exists f. split; [reflexivity|].
    destruct (String.eqb_spec f "appended") as [Hap|Hap].
    + subst f. exfalso.
      destruct (attr_get "offset" a) as [o|]; cbn [bind] in He; [|discriminate].
      unfold py_int in He.
      destruct (parse_decimal _); cbn [bind] in He; [|discriminate].
      destruct (attr_get "type" a); cbn [bind] in He; discriminate.
    + cbn [bind] in He.
      destruct (String.eqb_spec f "binary") as [Hb|Hb]; [discriminate|].
      destruct (String.eqb_spec f "ascii") as [Ha|Ha]; [discriminate|].
      auto.
  - intros (f & Hf & Ha & Hb & Hap). rewrite Hf. cbn [bind].
    rewrite (proj2 (String.eqb_neq _ _) Hap). cbn [bind].
    rewrite (proj2 (String.eqb_neq _ _) Hb), (proj2 (String.eqb_neq _ _) Ha).
    exists (ValueError (format_msg f)). split; [reflexivity | exists f; reflexivity].
Qed.

(** ** C10: an unknown header type *)

Definition remove_attr (key : string) (a : attrs) : attrs :=
  filter (fun kv => negb (String.eqb (fst kv) key)) a.

Lemma attr_get_remove (key key' : string) (a : attrs) :
  attr_get key' (remove_attr key a) = if String.eqb key' key then None else attr_get key' a.
Proof.
  induction a as [|[k v] a IH]; simpl.
  - destruct (String.eqb key' key); reflexivity.
  - destruct (String.eqb_spec k key) as [->|Hk]; simpl.
    + rewrite IH. destruct (String.eqb_spec key key') as [->|Hne].
      * now rewrite String.eqb_refl.
      * rewrite (proj2 (String.eqb_neq key' key)) by congruence. reflexivity.
    + rewrite IH. destruct (String.eqb_spec k key') as [->|Hne].
      * rewrite (proj2 (String.eqb_neq key' key)) by congruence. reflexivity.
      * reflexivity.
Qed.

(** Claim C10: a [header_type] that is not one of the ten type names raises
    nothing: the start event behaves exactly as without the attribute, and
    whenever it succeeds (a version and a known byte order, which it then
    always does) the header type is UInt32. *)
Theorem unknown_header_type_defaults (a : attrs) (h : string) :
  attr_get "header_type" a = Some h -> buffers h = None ->
  start_vtkfile a = start_vtkfile (remove_attr "header_type" a)
  /\ (forall dd, start_vtkfile a = Ok dd -> header_type dd = UInt32)
  /\ ((exists v, attr_get "version" a = Some v) ->
      (exists bo e, attr_get "byte_order" a = Some bo /\ byteorders bo = Some e) ->
      exists dd, start_vtkfile a = Ok dd /\ header_type dd = UInt32).
Proof.
  intros Hh Hb.
  assert (Heq : start_vtkfile a = start_vtkfile (remove_attr "header_type" a)).
  { unfold start_vtkfile. rewrite !attr_get_remove. cbn [String.eqb Ascii.eqb Bool.eqb].
    rewrite Hh, Hb. reflexivity. }
  assert (Hty : forall dd, start_vtkfile a = Ok dd -> header_type dd = UInt32).
  { intros dd H. unfold start_vtkfile in H. rewrite Hh, Hb in H.
    destruct (attr_get "version" a); [|discriminate].
    destruct (attr_get "byte_order" a) as [bo|]; [|discriminate].
    destruct (byteorders bo); [|discriminate].
    injection H as <-. reflexivity. }
  split; [exact Heq | split; [exact Hty|]].
  intros [v Hv] (bo & e & Hbo & He).
  unfold start_vtkfile. rewrite Hv, Hbo, He, Hh, Hb.
  eexists; split; reflexivity.
Qed.

(** ** C3: the appended blob *)

(** Two UInt16 arrays, [1] and [2; 3], each behind its UInt32 byte-length
    header: the first at offset 0, the second at offset 6. *)
Definition two_arrays_blob (e : endian) : list Z :=
  pack e UInt32 2 ++ pack e UInt16 1 ++ pack e UInt32 4 ++ pack e UInt16 2 ++ pack e UInt16 3.

Definition two_arrays_regs : list registration :=
  [(0, "UInt16"%string, 1%nat); (6, "UInt16"%string, 2%nat)].

(** Claim C3 (failing input): on a little-endian machine the resolver reads
    the headers of a BigEndian document in big-endian order but the
    elements in the machine's order, giving [256] and [512; 768] instead of
    [1] and [2; 3]; the same blob in a LittleEndian document gives [1] and
    [2; 3]. *)
Theorem appended_elements_ignore_byte_order :
  match handle_appended_data Little (fun _ _ _ => Ok 0) (doc_v1 Big)
          (b64encode (two_arrays_blob Big)) two_arrays_regs empty_store with
  | Ok t => t 1%nat = Some (Flat [256]) /\ t 2%nat = Some (Flat [512; 768])
  | Err _ => False
  end
  /\ match handle_appended_data Little (fun _ _ _ => Ok 0) (doc_v1 Little)
          (b64encode (two_arrays_blob Little)) two_arrays_regs empty_store with
  | Ok t => t 1%nat = Some (Flat [1]) /\ t 2%nat = Some (Flat [2; 3])
  | Err _ => False
  end.
Proof. vm_compute. split; split; reflexivity. Qed.

(** ** C2: feeding a raw section in chunks *)

Module RawChunks.
Import Patcher.
Local Open Scope string_scope.

Definition vtk_open : string :=
  "<VTKFile version=" ++ String dq ("1.0" ++ String dq (" byte_order="
  ++ String dq ("LittleEndian" ++ String dq ">"))).

Definition raw_doc : string := vtk_open ++ raw_start ++ "ABC" ++ raw_end ++ "</VTKFile>".

(** The document cut inside the start marker, between the letters [ra] and
    [w] of its [raw]. *)
Definition cut : nat := String.length vtk_open + 26.
Definition chunk1 : string := substring 0 cut raw_doc.
Definition chunk2 : string := substring cut (String.length raw_doc - cut) raw_doc.

(** The character data of the first AppendedData element of a forwarded
    stream (no markup inside it), as the XML tokenizer reports it. *)
Fixpoint appended_text (s : string) : option string :=
  if prefix marker s then
    match index 0 raw_end (after_marker s) with
    | Some n => Some (substring 0 n (after_marker s))
    | None => None
    end
  else match s with
       | EmptyString => None
       | String _ s' => appended_text s'
       end.

(** The builder events of such a document: VTKFile, AppendedData, its text,
    and the AppendedData end tag (no DataArray registered). *)
Definition run_appended (text : string) : result builder :=
  let* b1 := start empty_builder "VTKFile" vtkfile_le in
  let* b2 := start b1 "AppendedData" [("encoding", "raw")] in
  end_ Little (fun _ _ _ => Ok 0) (fun _ _ => None) (data b2 text) "AppendedData".

(** Claim C2 (failing input): fed whole, the raw section is re-encoded to
    base64 and the document decodes; cut inside the start marker, neither
    chunk contains the marker, both are passed on untouched, and decoding
    the AppendedData text fails. *)
Theorem chunk_inside_marker_diverges :
  chunk1 ++ chunk2 = raw_doc
  /\ feed_all init [raw_doc]
     = [vtk_open ++ marker ++ "QUJD" ++ raw_end ++ "</VTKFile>"]
  /\ feed_all init [chunk1; chunk2] = [chunk1; chunk2]
  /\ appended_text (String.concat "" (feed_all init [raw_doc])) = Some "QUJD"
  /\ appended_text (String.concat "" (feed_all init [chunk1; chunk2])) = Some "_ABC"
  /\ (exists b, run_appended "QUJD" = Ok b)
  /\ run_appended "_ABC" = Err (TypeError "Incorrect padding").
Proof.
  repeat split; try (vm_compute; reflexivity).
  eexists. vm_compute. reflexivity.
Qed.

End RawChunks.

(** ** The theorems at concrete inputs *)

(** A reader of decimal integers in the manner of C's [strtol], to run the
    examples with: it skips leading whitespace, takes an optional sign and
    the digits after it, and converts the value to the kind's width; it
    reads nothing when no digit follows. *)
Fixpoint span_digits (cs : list ascii) : list ascii * list ascii :=
  match cs with
  | c :: cs' =>
      match digit_value c with
      | Some _ => let '(ds, rest) := span_digits cs' in (c :: ds, rest)
      | None => ([], cs)
      end
  | [] => ([], [])
  end.

Definition dec_fromstr (k : kind) (cs : list ascii) : option (Z * list ascii) :=
  let cs1 := drop_space cs in
  let '(sign, cs2) :=
    match cs1 with
    | c :: cs' =>
        if Ascii.eqb c "-" then (-1, cs')
        else if Ascii.eqb c "+" then (1, cs')
        else (1, cs1)
    | [] => (1, [])
    end in
  match span_digits cs2 with
  | ([], _) => None
  | (ds, rest) =>
      match digits_value 0 ds with
      | Some v => Some (wrap k (sign * v), rest)
      | None => None
      end
  end.

Lemma split_header_roundtrip_witness :
  handle_data_array Little (fun _ _ _ => Ok 0) (fun _ _ => None) (doc_v01 Big) binary_int16
    (encode_split (doc_v01 Big) Int16 [1; -2]) = Ok (Flat [1; -2]).
Proof.
  exact (proj2 (split_header_roundtrip Little (fun _ _ _ => Ok 0) (fun _ _ => None)
    (doc_v01 Big) binary_int16 Int16 [1; -2] eq_refl eq_refl
    ltac:(unfold in_range; simpl; lia)
    ltac:(repeat constructor; unfold in_range; simpl; lia)
    eq_refl eq_refl eq_refl)).
Defined.

Definition ascii_int32_3 : attrs :=
  [("type", "Int32"); ("format", "ascii"); ("NumberOfComponents", "3")]%string.

Lemma reshape_rows_witness :
  (Z.of_nat (List.length [1; 2; 3; 4; 5; 6]) mod 3 = 0 ->
   exists rs, handle_data_array Little (fun _ _ _ => Ok 0) dec_fromstr (doc_v1 Little)
                ascii_int32_3 "1 2 3 4 5 6" = Ok (Rows rs)
     /\ Z.of_nat (List.length rs) = Z.of_nat (List.length [1; 2; 3; 4; 5; 6]) / 3
     /\ Forall (fun r => Z.of_nat (List.length r) = 3) rs
     /\ List.concat rs = [1; 2; 3; 4; 5; 6])
  /\ (Z.of_nat (List.length [1; 2; 3; 4; 5; 6]) mod 3 <> 0 ->
      handle_data_array Little (fun _ _ _ => Ok 0) dec_fromstr (doc_v1 Little)
        ascii_int32_3 "1 2 3 4 5 6" = Err (ValueError reshape_msg)).
Proof.
  exact (reshape_rows Little (fun _ _ _ => Ok 0) dec_fromstr (doc_v1 Little) ascii_int32_3
    "1 2 3 4 5 6" [1; 2; 3; 4; 5; 6] 3
    ltac:(vm_compute; reflexivity) ltac:(vm_compute; reflexivity) ltac:(lia)).
Defined.

(** The builder once a LittleEndian VTKFile and an appended UInt8 DataArray
    (element 1) are open. *)
Definition appended_builder : builder :=
  match start empty_builder "VTKFile" vtkfile_le with
  | Ok b1 => match start b1 "DataArray" appended_uint8 with
             | Ok b2 => b2
             | Err _ => empty_builder
             end
  | Err _ => empty_builder
  end.

Lemma appended_close_then_overwrite_witness :
  end_ Little (fun _ _ _ => Ok 0) dec_fromstr appended_builder "DataArray"
    = (let* p := finish_shape (elem_attrs appended_builder)
                   (fromstring_sep Little dec_fromstr (byteorder (doc_v1 Little)) UInt8
                      (array_data appended_builder)) in
       Ok (with_texts appended_builder
             (set_text (texts appended_builder) (elem appended_builder) p))).
Proof.
  exact (proj1 (appended_close_then_overwrite Little (fun _ _ _ => Ok 0) dec_fromstr
    appended_builder (doc_v1 Little) "UInt8" UInt8
    ltac:(vm_compute; reflexivity) ltac:(vm_compute; reflexivity)
    ltac:(vm_compute; reflexivity) ltac:(vm_compute; reflexivity))).
Defined.

Lemma appended_offset_past_end_witness :
  (exists e, resolve_one Little (fun _ _ _ => Ok 0) (doc_v1 Little) (two_arrays_blob Little)
               (15, "UInt16"%string, 1%nat) = Err e /\ OffsetError e)
  /\ (forall regs t, In (15, "UInt16"%string, 1%nat) regs ->
        exists e, resolve_all Little (fun _ _ _ => Ok 0) (doc_v1 Little)
                    (two_arrays_blob Little) regs t = Err e).
Proof.
  exact (appended_offset_past_end Little (fun _ _ _ => Ok 0) (doc_v1 Little)
    (two_arrays_blob Little) (15, "UInt16"%string, 1%nat)
    ltac:(simpl; lia) ltac:(vm_compute; reflexivity)).
Defined.

Definition vtkfile_float16_header : attrs :=
  [("version", "1.0"); ("byte_order", "BigEndian"); ("header_type", "Float16")]%string.

Lemma unknown_header_type_defaults_witness :
  start_vtkfile vtkfile_float16_header
    = start_vtkfile (remove_attr "header_type" vtkfile_float16_header)
  /\ (forall dd, start_vtkfile vtkfile_float16_header = Ok dd -> header_type dd = UInt32)
  /\ ((exists v, attr_get "version" vtkfile_float16_header = Some v) ->
      (exists bo e, attr_get "byte_order" vtkfile_float16_header = Some bo
                    /\ byteorders bo = Some e) ->
      exists dd, start_vtkfile vtkfile_float16_header = Ok dd /\ header_type dd = UInt32).
Proof.
  exact (unknown_header_type_defaults vtkfile_float16_header "Float16"
    ltac:(vm_compute; reflexivity) ltac:(vm_compute; reflexivity)).
Defined.

(** * Further properties of the reader *)

Lemma b64encode_length4 (bs : list Z) :
  Z.of_nat (String.length (b64encode bs)) = 4 * ((Z.of_nat (List.length bs) + 2) / 3).
Proof.
  induction bs as [bs IH] using (well_founded_induction
    (Wf_nat.well_founded_ltof _ (@List.length Z))).
  destruct bs as [|b1 [|b2 [|b3 rest]]]; try reflexivity.
  cbn [b64encode String.length List.length].
  rewrite !Nat2Z.inj_succ, IH by (unfold ltof; simpl; lia).
  Z.div_mod_to_equations. lia.
Qed.

(** Base64 as the reader uses it: [b64decode] inverts [b64encode] on every
    byte string; the encoding has 4 characters per started group of 3 bytes
    and no whitespace, so [str.strip] leaves it unchanged. *)
Theorem b64_roundtrip (bs : list Z) :
  Forall is_byte bs ->
  b64decode (b64encode bs) = Ok bs
  /\ Z.of_nat (String.length (b64encode bs)) = 4 * ((Z.of_nat (List.length bs) + 2) / 3)
  /\ py_strip (b64encode bs) = b64encode bs.
Proof.
  intros H. split; [apply b64decode_b64encode; exact H|].
  split; [apply b64encode_length4|].
  apply py_strip_id, b64encode_no_space. exact H.
Qed.

Lemma b64_roundtrip_witness :
  Forall is_byte [0; 255; 16; 32] /\
  (b64decode (b64encode [0; 255; 16; 32]) = Ok [0; 255; 16; 32]
  /\ Z.of_nat (String.length (b64encode [0; 255; 16; 32]))
     = 4 * ((Z.of_nat (List.length [0; 255; 16; 32]) + 2) / 3)
  /\ py_strip (b64encode [0; 255; 16; 32]) = b64encode [0; 255; 16; 32]).
Proof.
  assert (H : Forall is_byte [0; 255; 16; 32])
    by (repeat constructor; unfold is_byte; lia).
  split; [exact H | exact (b64_roundtrip [0; 255; 16; 32] H)].
Defined.

(** A character that is neither in the base64 table nor the pad. *)
Definition outside_alphabet (c : ascii) : bool :=
  negb (is_pad c) && match sextet_of_char c with Some _ => false | None => true end.

Lemma find_valid_skip (num : nat) (s1 : string) (c : ascii) (s2 : string) :
  outside_alphabet c = true ->
  find_valid num (s1 ++ String c s2) = find_valid num (s1 ++ s2).
Proof.
  intros Hc. unfold outside_alphabet in Hc. apply andb_prop in Hc as [Hp Hs].
  apply negb_true_iff in Hp.
  revert num. induction s1 as [|c' s1 IH]; intros num.
  - simpl. rewrite Hp. destruct (sextet_of_char c); [discriminate|].
    rewrite andb_false_r. reflexivity.
  - simpl. destruct (_ && _); [destruct num|]; auto.
Qed.

Lemma a2b_skip (q lc lb : Z) (acc : list Z) (s1 : string) (c : ascii) (s2 : string) :
  outside_alphabet c = true ->
  a2b_loop q lc lb acc (s1 ++ String c s2) = a2b_loop q lc lb acc (s1 ++ s2).
Proof.
  intros Hc. pose proof (find_valid_skip 1) as Hf.
  unfold outside_alphabet in Hc. apply andb_prop in Hc as [Hp Hs].
  apply negb_true_iff in Hp.
  revert q lc lb acc. induction s1 as [|c' s1 IH]; intros q lc lb acc.
  - simpl. destruct (_ || _); [reflexivity|]. rewrite Hp.
    destruct (sextet_of_char c); [discriminate | reflexivity].
  - assert (Hf1 : find_valid 1 (String c' (s1 ++ String c s2))
                  = find_valid 1 (String c' (s1 ++ s2)))
      by (apply (Hf (String c' s1)); unfold outside_alphabet; rewrite Hp, Hs; reflexivity).
    change (String c' s1 ++ String c s2)%string with (String c' (s1 ++ String c s2)).
    change (String c' s1 ++ s2)%string with (String c' (s1 ++ s2)).
    cbn [a2b_loop]. rewrite Hf1. destruct (sextet_of_char c'); rewrite !IH; reflexivity.
Qed.

(** [b64decode] ignores every character that is neither in the base64
    table nor the pad (line breaks, spaces, tabs, bytes above 0x7f, ...),
    wherever it occurs; so does the decoding of an AppendedData text. *)
Theorem b64decode_skips_outside_alphabet (s1 : string) (c : ascii) (s2 : string) :
  outside_alphabet c = true ->
  b64decode (s1 ++ String c s2) = b64decode (s1 ++ s2)
  /\ (forall native float_count d regs t,
        handle_appended_data native float_count d (s1 ++ String c s2) regs t
        = handle_appended_data native float_count d (s1 ++ s2) regs t).
Proof.
  intros Hc. assert (H : b64decode (s1 ++ String c s2) = b64decode (s1 ++ s2))
    by (apply a2b_skip; exact Hc).
  split; [exact H|]. intros. unfold handle_appended_data. now rewrite H.
Qed.

Lemma b64decode_skips_outside_alphabet_witness :
  outside_alphabet "010"%char = true /\
  b64decode ("QU" ++ String "010" "JD") = b64decode ("QU" ++ "JD").
Proof.
  split; [reflexivity|].
  exact (proj1 (b64decode_skips_outside_alphabet "QU" "010"%char "JD" eq_refl)).
Defined.

Lemma firstn_pack_app (e : endian) (k : kind) (v : Z) (rest : list Z) :
  firstn (width k) (pack e k v ++ rest) = pack e k v.
Proof.
  replace (width k) with (List.length (pack e k v)) by apply pack_length.
  rewrite firstn_app, firstn_all, Nat.sub_diag, firstn_O, app_nil_r. reflexivity.
Qed.

Lemma skipn_pack_app (e : endian) (k : kind) (v : Z) (rest : list Z) :
  skipn (width k) (pack e k v ++ rest) = rest.
Proof.
  replace (width k) with (List.length (pack e k v)) by apply pack_length.
  rewrite skipn_app, skipn_all, Nat.sub_diag, skipn_O. reflexivity.
Qed.

Lemma unpack_from_at (e : endian) (k : kind) (v : Z) (pre post : list Z) :
  is_float k = false -> in_range k v ->
  unpack_from e k (pre ++ pack e k v ++ post) (Z.of_nat (List.length pre)) = Ok (PInt v).
Proof.
  intros Hf Hr. unfold unpack_from. rewrite !length_app, pack_length.
  replace (Z.of_nat (List.length pre) <? 0) with false by (symmetry; apply Z.ltb_ge; lia).
  replace (Z.of_nat (List.length pre + (width k + List.length post))
           - Z.of_nat (List.length pre) <? calcsize k) with false
    by (symmetry; apply Z.ltb_ge; unfold calcsize; lia).
  cbn [orb]. rewrite Nat2Z.id, skipn_app, skipn_all, Nat.sub_diag, skipn_O. simpl app.
  rewrite firstn_pack_app. unfold unpack_num. rewrite Hf, unpack_value_pack by exact Hr.
  replace (Z.of_nat (List.length pre) <? 0) with false by (symmetry; apply Z.ltb_ge; lia).
  reflexivity.
Qed.

Lemma unpack_from_end (e : endian) (k : kind) (v : Z) (pre : list Z) :
  is_float k = false -> in_range k v ->
  unpack_from e k (pre ++ pack e k v) (- calcsize k) = Ok (PInt v).
Proof.
  intros Hf Hr. unfold unpack_from. rewrite length_app, pack_length.
  pose proof (calcsize_pos k) as Hc.
  replace (- calcsize k <? 0) with true by (symmetry; apply Z.ltb_lt; lia).
  replace (- calcsize k + Z.of_nat (List.length pre + width k))
    with (Z.of_nat (List.length pre)) by (unfold calcsize; lia).
  replace (Z.of_nat (List.length pre) <? 0) with false by (symmetry; apply Z.ltb_ge; lia).
  replace (Z.of_nat (List.length pre + width k) - Z.of_nat (List.length pre) <? calcsize k)
    with false by (symmetry; apply Z.ltb_ge; unfold calcsize; lia).
  cbn [orb]. rewrite Nat2Z.id, skipn_app, skipn_all, Nat.sub_diag, skipn_O. simpl app.
  rewrite firstn_all2 by (rewrite pack_length; lia).
  unfold unpack_num. rewrite Hf, unpack_value_pack by exact Hr. reflexivity.
Qed.

(** [struct.unpack_from] of an integer kind reads back a packed value at the
    offset where it was written, whatever surrounds it; a negative offset
    counts from the end of the buffer. *)
Theorem unpack_from_offset (e : endian) (k : kind) (v : Z) (pre post : list Z) :
  is_float k = false -> in_range k v ->
  unpack_from e k (pre ++ pack e k v ++ post) (Z.of_nat (List.length pre)) = Ok (PInt v)
  /\ unpack_from e k (pre ++ pack e k v) (- calcsize k) = Ok (PInt v).
Proof. intros Hf Hr. split; [apply unpack_from_at | apply unpack_from_end]; assumption. Qed.

Lemma unpack_from_offset_witness :
  unpack_from Big Int16 ([7] ++ pack Big Int16 (-2) ++ [9]) (Z.of_nat (List.length [7]))
  = Ok (PInt (-2)).
Proof.
  exact (proj1 (unpack_from_offset Big Int16 (-2) [7] [9] eq_refl
    ltac:(unfold in_range; simpl; lia))).
Defined.

Lemma read_elems_pack_app (e : endian) (k : kind) (xs extra : list Z) :
  Forall (in_range k) xs ->
  read_elems e k (List.length xs) (List.concat (map (pack e k) xs) ++ extra) = xs.
Proof.
  induction xs as [|x xs IH]; intros H; [reflexivity|].
  inversion H; subst. cbn [List.length read_elems List.concat map].
  rewrite <- app_assoc, firstn_pack_app, skipn_pack_app.
  rewrite unpack_value_pack, IH by assumption. reflexivity.
Qed.

Lemma fromstring_bin_pack_app (e : endian) (k : kind) (xs extra : list Z) :
  Forall (in_range k) xs ->
  fromstring_bin e k (List.concat (map (pack e k) xs) ++ extra) (Z.of_nat (List.length xs))
  = Ok xs.
Proof.
  intros H. unfold fromstring_bin. rewrite length_app, concat_pack_length.
  replace (Z.of_nat (List.length xs) <? 0) with false by (symmetry; apply Z.ltb_ge; lia).
  replace (Z.of_nat (List.length xs * width k + List.length extra)
           <? Z.of_nat (List.length xs) * calcsize k)
    with false by (symmetry; apply Z.ltb_ge; unfold calcsize; lia).
  rewrite Nat2Z.id, read_elems_pack_app by exact H. reflexivity.
Qed.

Lemma count_of_length (k : kind) (xs : list Z) :
  Z.of_nat (List.length xs) * calcsize k / calcsize k = Z.of_nat (List.length xs).
Proof. apply Z.div_mul. pose proof (calcsize_pos k). lia. Qed.

(** On a machine whose byte order is the document's, a registration whose
    offset points at a length header followed by the packed elements reads
    back exactly those elements, whatever precedes or follows them in the
    blob. *)
Theorem appended_array_at_offset (float_count : kind -> Z -> Z -> result Z) (d : doc) (k : kind)
  (xs pre post : list Z) (el : nat) :
  is_float (header_type d) = false ->
  in_range (header_type d) (Z.of_nat (List.length xs) * calcsize k) ->
  Forall (in_range k) xs ->
  resolve_one (byteorder d) float_count d
    (pre ++ pack (byteorder d) (header_type d) (Z.of_nat (List.length xs) * calcsize k)
         ++ List.concat (map (pack (byteorder d) k) xs) ++ post)
    (Z.of_nat (List.length pre), kind_name k, el) = Ok (el, xs).
Proof.
  intros Hf Hr Hxs. unfold resolve_one.
  rewrite unpack_from_at by assumption. cbn [bind].
  unfold buffers_index. rewrite buffers_kind_name. cbn [bind py_count].
  rewrite count_of_length.
  unfold py_drop. rewrite !length_app, pack_length.
  replace (Z.of_nat (List.length pre) + calcsize (header_type d) <? 0) with false
    by (symmetry; apply Z.ltb_ge; pose proof (calcsize_pos (header_type d)); lia).
  rewrite Z.min_l by (unfold calcsize; lia).
  replace (Z.to_nat (Z.of_nat (List.length pre) + calcsize (header_type d)))
    with (List.length (pre ++ pack (byteorder d) (header_type d)
                                    (Z.of_nat (List.length xs) * calcsize k)))
    by (rewrite length_app, pack_length; unfold calcsize; lia).
  rewrite app_assoc, skipn_app, skipn_all, Nat.sub_diag, skipn_O. simpl app.
  rewrite fromstring_bin_pack_app by exact Hxs. reflexivity.
Qed.

Lemma appended_array_at_offset_witness :
  resolve_one (byteorder (doc_v1 Little)) (fun _ _ _ => Ok 0) (doc_v1 Little)
    ([0; 0; 0; 0; 0; 0] ++ pack Little UInt32 (Z.of_nat (List.length [2; 3]) * calcsize UInt16)
       ++ List.concat (map (pack Little UInt16) [2; 3]) ++ [])
    (Z.of_nat (List.length [0; 0; 0; 0; 0; 0]), kind_name UInt16, 2%nat) = Ok (2%nat, [2; 3]).
Proof.
  exact (appended_array_at_offset (fun _ _ _ => Ok 0) (doc_v1 Little) UInt16 [2; 3]
    [0; 0; 0; 0; 0; 0] [] 2%nat eq_refl ltac:(unfold in_range; simpl; lia)
    ltac:(repeat constructor; unfold in_range; simpl; lia)).
Defined.

Lemma read_elems_pack_any (e e' : endian) (k : kind) (xs extra : list Z) :
  read_elems e' k (List.length xs) (List.concat (map (pack e k) xs) ++ extra)
  = map (fun x => unpack_value e' k (pack e k x)) xs.
Proof.
  induction xs as [|x xs IH]; [reflexivity|].
  cbn [List.length read_elems List.concat map].
  rewrite <- app_assoc, firstn_pack_app, skipn_pack_app, IH. reflexivity.
Qed.

Lemma fromstring_bin_pack_any (e e' : endian) (k : kind) (xs extra : list Z) :
  fromstring_bin e' k (List.concat (map (pack e k) xs) ++ extra) (Z.of_nat (List.length xs))
  = Ok (map (fun x => unpack_value e' k (pack e k x)) xs).
Proof.
  unfold fromstring_bin. rewrite length_app, concat_pack_length.
  replace (Z.of_nat (List.length xs) <? 0) with false by (symmetry; apply Z.ltb_ge; lia).
  replace (Z.of_nat (List.length xs * width k + List.length extra)
           <? Z.of_nat (List.length xs) * calcsize k)
    with false by (symmetry; apply Z.ltb_ge; unfold calcsize; lia).
  rewrite Nat2Z.id, read_elems_pack_any. reflexivity.
Qed.

(** A registration whose offset is minus the header size takes its length
    header from the last bytes of the blob but its elements from the start
    of the blob ([raw_data[offset + header_size:]] is [raw_data[0:]]), read
    in the machine's byte order like every appended array. *)
Theorem appended_negative_offset (native : endian)
  (float_count : kind -> Z -> Z -> result Z) (d : doc) (k : kind)
  (xs post : list Z) (el : nat) :
  is_float (header_type d) = false ->
  in_range (header_type d) (Z.of_nat (List.length xs) * calcsize k) ->
  resolve_one native float_count d
    (List.concat (map (pack (byteorder d) k) xs) ++ post
       ++ pack (byteorder d) (header_type d) (Z.of_nat (List.length xs) * calcsize k))
    (- calcsize (header_type d), kind_name k, el)
  = Ok (el, map (fun x => unpack_value native k (pack (byteorder d) k x)) xs).
Proof.
  intros Hf Hr. unfold resolve_one.
  rewrite app_assoc, unpack_from_end by assumption. cbn [bind].
  unfold buffers_index. rewrite buffers_kind_name. cbn [bind py_count].
  rewrite count_of_length. rewrite Z.add_opp_diag_l.
  unfold py_drop. simpl Z.ltb. cbv iota.
  rewrite Z.min_l by lia. simpl Z.to_nat. rewrite skipn_O, <- app_assoc.
  rewrite fromstring_bin_pack_any. reflexivity.
Qed.

Lemma appended_negative_offset_witness :
  resolve_one Little (fun _ _ _ => Ok 0) (doc_v1 Big)
    (List.concat (map (pack Big UInt16) [2; 3]) ++ [5]
       ++ pack Big UInt32 (Z.of_nat (List.length [2; 3]) * calcsize UInt16))
    (- calcsize UInt32, kind_name UInt16, 1%nat)
  = Ok (1%nat, map (fun x => unpack_value Little UInt16 (pack Big UInt16 x)) [2; 3]).
Proof.
  exact (appended_negative_offset Little (fun _ _ _ => Ok 0) (doc_v1 Big) UInt16 [2; 3] [5]
    1%nat eq_refl ltac:(unfold in_range; simpl; lia)).
Defined.


(** The resolution of the appended arrays succeeds exactly when every
    registration can be read on its own. *)
Theorem resolve_all_all_or_nothing (native : endian) (float_count : kind -> Z -> Z -> result Z)
  (d : doc) (raw : list Z) (regs : list registration) (t : store) :
  (exists t', resolve_all native float_count d raw regs t = Ok t')
  <-> Forall (fun r => exists res, resolve_one native float_count d raw r = Ok res) regs.
Proof.
  revert t. induction regs as [|r regs IH]; intros t; simpl.
  - split; [constructor | intros _; exists t; reflexivity].
  - destruct (resolve_one native float_count d raw r) as [res|e] eqn:E; cbn [bind].
    + rewrite IH. split.
      * intros H. constructor; [exists res; exact E | exact H].
      * intros H. inversion H; assumption.
    + split.
      * intros [t' H]. discriminate.
      * intros H. inversion H as [|? ? [res Hres] _]; subst. congruence.
Qed.


(** After a successful resolution, the slots of unregistered elements are
    unchanged and, when no element is registered twice, each registered
    element's slot holds the array its own registration reads. *)
Theorem resolve_all_slots (native : endian) (float_count : kind -> Z -> Z -> result Z)
  (d : doc) (raw : list Z) (regs : list registration) (t t' : store) :
  resolve_all native float_count d raw regs t = Ok t' ->
  (forall j, ~ In j (map snd regs) -> t' j = t j)
  /\ (NoDup (map snd regs) -> forall r, In r regs ->
        exists arr, resolve_one native float_count d raw r = Ok (snd r, arr)
          /\ t' (snd r) = Some (Flat arr)).
Proof.
  intros H. split; [exact (resolve_all_frame _ _ _ _ _ _ _ H)|].
  revert t H. induction regs as [|r0 regs IH]; intros t H Hnd r Hin; [destruct Hin|].
  simpl in H. inversion Hnd as [|? ? Hnot Hnd']; subst.
  destruct (resolve_one native float_count d raw r0) as [[el arr]|e] eqn:E;
    cbn [bind fst snd] in H; [|discriminate].
  pose proof (resolve_one_elem _ _ _ _ _ _ E) as Hel. simpl in Hel. subst el.
  destruct Hin as [<-|Hin].
  - exists arr. split; [exact E|].
    rewrite (resolve_all_frame _ _ _ _ _ _ _ H _ Hnot).
    unfold set_text. now rewrite Nat.eqb_refl.
  - exact (IH _ H Hnd' r Hin).
Qed.

Definition two_arrays_store : store :=
  match resolve_all Little (fun _ _ _ => Ok 0) (doc_v1 Little) (two_arrays_blob Little)
          two_arrays_regs empty_store with
  | Ok t => t
  | Err _ => empty_store
  end.

Lemma resolve_all_slots_witness :
  resolve_all Little (fun _ _ _ => Ok 0) (doc_v1 Little) (two_arrays_blob Little)
    two_arrays_regs empty_store = Ok two_arrays_store
  /\ two_arrays_store 0%nat = empty_store 0%nat.
Proof.
  assert (H : resolve_all Little (fun _ _ _ => Ok 0) (doc_v1 Little) (two_arrays_blob Little)
                two_arrays_regs empty_store = Ok two_arrays_store)
    by (vm_compute; reflexivity).
  split; [exact H|].
  apply (proj1 (resolve_all_slots _ _ _ _ _ _ _ H)). simpl. intuition discriminate.
Defined.

Lemma str_app_assoc (a b c : string) : (a ++ b ++ c)%string = ((a ++ b) ++ c)%string.
Proof. induction a as [|x a IH]; simpl; [reflexivity | now rewrite IH]. Qed.

Lemma str_app_nil (a : string) : (a ++ "")%string = a.
Proof. induction a as [|x a IH]; simpl; [reflexivity | now rewrite IH]. Qed.

(** Decimal text of an integer, as a writer prints it. *)
Fixpoint z_digits (fuel : nat) (n : Z) (acc : list ascii) : list ascii :=
  match fuel with
  | O => acc
  | S f =>
      let acc' := char_of_code (48 + n mod 10) :: acc in
      if n <? 10 then acc' else z_digits f (n / 10) acc'
  end.

Definition z_dec (z : Z) : list ascii :=
  if z <? 0 then "-"%char :: z_digits (S (Z.to_nat (- z))) (- z) []
  else z_digits (S (Z.to_nat z)) z [].

Definition dec_string (z : Z) : string := string_of_list_ascii (z_dec z).

(** Tokens joined by single spaces. *)
Lemma z_digits_acc (f : nat) (n : Z) (acc : list ascii) :
  z_digits f n acc = z_digits f n [] ++ acc.
Proof.
  revert n acc. induction f as [|f IH]; intros n acc; [reflexivity|].
  cbn [z_digits]. destruct (n <? 10); [reflexivity|].
  rewrite IH, (IH _ [_]), <- app_assoc. reflexivity.
Qed.

Lemma digits_value_app (a : Z) (l1 l2 : list ascii) :
  digits_value a (l1 ++ l2)
  = match digits_value a l1 with Some v => digits_value v l2 | None => None end.
Proof.
  revert a. induction l1 as [|c l1 IH]; intros a; [reflexivity|].
  simpl. destruct (digit_value c); [apply IH | reflexivity].
Qed.

Definition digit_char (d : Z) : bool :=
  match digit_value (char_of_code (48 + d)) with Some d' => d' =? d | None => false end
  && negb (is_space (char_of_code (48 + d)))
  && negb (Ascii.eqb (char_of_code (48 + d)) "-")
  && negb (Ascii.eqb (char_of_code (48 + d)) "+").

Lemma digit_char_ok (d : Z) : 0 <= d < 10 ->
  digit_value (char_of_code (48 + d)) = Some d
  /\ is_space (char_of_code (48 + d)) = false
  /\ Ascii.eqb (char_of_code (48 + d)) "-" = false
  /\ Ascii.eqb (char_of_code (48 + d)) "+" = false.
Proof.
  intros H. pose proof (zrange_spec 10 digit_char d ltac:(vm_compute; reflexivity)
    ltac:(simpl; lia)) as G.
  unfold digit_char in G.
  destruct (digit_value _) as [d'|]; [|discriminate].
  destruct (d' =? d) eqn:E, (is_space _), (Ascii.eqb _ "-"), (Ascii.eqb _ "+");
    try discriminate.
  apply Z.eqb_eq in E. subst. auto.
Qed.

Definition is_digit_char (c : ascii) : Prop := exists d, 0 <= d < 10 /\ c = char_of_code (48 + d).

Lemma z_digits_chars (f : nat) (n : Z) (acc : list ascii) :
  0 <= n -> Forall is_digit_char acc -> Forall is_digit_char (z_digits f n acc).
Proof.
  revert n acc. induction f as [|f IH]; intros n acc Hn Hacc; [exact Hacc|].
  assert (Hd : is_digit_char (char_of_code (48 + n mod 10)))
    by (exists (n mod 10); split; [apply Z.mod_pos_bound; lia | reflexivity]).
  cbn [z_digits]. destruct (n <? 10).
  - constructor; assumption.
  - apply IH; [apply Z.div_pos; lia | constructor; assumption].
Qed.

Lemma z_digits_nonempty (f : nat) (n : Z) : z_digits (S f) n [] <> [].
Proof.
  cbn [z_digits]. destruct (n <? 10); [discriminate|].
  rewrite z_digits_acc. intros H. apply app_eq_nil in H as [_ H]. discriminate.
Qed.

Lemma z_digits_value (f : nat) (n : Z) :
  0 <= n -> n < Z.of_nat f -> digits_value 0 (z_digits f n []) = Some n.
Proof.
  revert n. induction f as [|f IH]; intros n Hn Hf; [simpl in Hf; lia|].
  rewrite Nat2Z.inj_succ in Hf.
  assert (Hm : 0 <= n mod 10 < 10) by (apply Z.mod_pos_bound; lia).
  destruct (digit_char_ok _ Hm) as (Hv & _).
  cbn [z_digits]. destruct (n <? 10) eqn:E.
  - apply Z.ltb_lt in E. cbn [digits_value]. rewrite Hv. simpl. f_equal. rewrite Z.mod_small; lia.
  - apply Z.ltb_ge in E. rewrite z_digits_acc, digits_value_app.
    rewrite IH by (try apply Z.div_pos; try lia; apply Z.div_lt_upper_bound; lia).
    cbn [digits_value]. rewrite Hv. f_equal. rewrite (Z.div_mod n 10) at 3 by lia. lia.
Qed.

Lemma z_dec_chars (z : Z) : Forall (fun c => is_space c = false) (z_dec z).
Proof.
  assert (H : forall n, 0 <= n -> Forall (fun c => is_space c = false)
                                   (z_digits (S (Z.to_nat n)) n [])).
  { intros n Hn. eapply Forall_impl; [|apply z_digits_chars; [exact Hn | constructor]].
    intros c (d & Hd & ->). apply (digit_char_ok d Hd). }
  unfold z_dec. destruct (z <? 0) eqn:E.
  - apply Z.ltb_lt in E. constructor; [reflexivity | apply H; lia].
  - apply Z.ltb_ge in E. apply H. exact E.
Qed.

Lemma parse_decimal_digits (n : Z) :
  0 <= n -> parse_decimal (z_digits (S (Z.to_nat n)) n []) = Some n.
Proof.
  intros Hn. pose proof (z_digits_value (S (Z.to_nat n)) n Hn ltac:(lia)) as Hv.
  pose proof (z_digits_chars (S (Z.to_nat n)) n [] Hn (Forall_nil _)) as Hc.
  pose proof (z_digits_nonempty (Z.to_nat n) n) as Hne.
  destruct (z_digits (S (Z.to_nat n)) n []) as [|c cs]; [contradiction|].
  destruct (Forall_inv Hc) as (d & Hd & ->).
  destruct (digit_char_ok d Hd) as (_ & _ & Hm & Hp).
  unfold parse_decimal. cbv beta iota. rewrite Hm, Hp. exact Hv.
Qed.

Lemma parse_decimal_z_dec (z : Z) : parse_decimal (z_dec z) = Some z.
Proof.
  unfold z_dec. destruct (z <? 0) eqn:E.
  - apply Z.ltb_lt in E.
    pose proof (z_digits_value (S (Z.to_nat (- z))) (- z) ltac:(lia) ltac:(lia)) as Hv.
    pose proof (z_digits_nonempty (Z.to_nat (- z)) (- z)) as Hne.
    unfold parse_decimal. cbn [Ascii.eqb Bool.eqb].
    destruct (z_digits (S (Z.to_nat (- z))) (- z) []) as [|c cs]; [contradiction|].
    rewrite Hv. simpl. f_equal. lia.
  - apply Z.ltb_ge in E. apply parse_decimal_digits. exact E.
Qed.

Lemma py_strip_list (l : list ascii) :
  Forall (fun c => is_space c = false) l -> py_strip (string_of_list_ascii l) = string_of_list_ascii l.
Proof.
  intros H. unfold py_strip. rewrite list_ascii_of_string_of_list_ascii.
  rewrite (drop_space_id _ H), (drop_space_id (rev l)) by (apply Forall_rev; exact H).
  rewrite rev_involutive. reflexivity.
Qed.

Lemma py_int_dec_string (z : Z) : py_int (dec_string z) = Ok z.
Proof.
  unfold py_int, dec_string. rewrite py_strip_list by apply z_dec_chars.
  rewrite list_ascii_of_string_of_list_ascii, parse_decimal_z_dec. reflexivity.
Qed.

Definition ascii_int16 : attrs := [("type", "Int16"); ("format", "ascii")]%string.

(** numpy's text parser writes each value of an ascii DataArray in the
    machine's byte order into an array whose dtype carries the document's
    byte order: on a little-endian machine, with a parser that reads 1 from
    the text "1", an Int16 array with that text decodes to [1] in a
    LittleEndian document and to [256] in a BigEndian one. *)
Theorem ascii_host_byte_order (float_count : kind -> Z -> Z -> result Z)
  (fromstr : kind -> list ascii -> option (Z * list ascii)) :
  fromstr Int16 ["1"%char] = Some (1, []) ->
  handle_data_array Little float_count fromstr (doc_v1 Little) ascii_int16 "1"
    = Ok (Flat [1])
  /\ handle_data_array Little float_count fromstr (doc_v1 Big) ascii_int16 "1"
    = Ok (Flat [256]).
Proof.
  intros H. split; unfold handle_data_array, decode_flat, fromstring_sep;
    simpl; rewrite H; vm_compute; reflexivity.
Qed.

Lemma ascii_host_byte_order_witness :
  handle_data_array Little (fun _ _ _ => Ok 0) dec_fromstr (doc_v1 Little) ascii_int16 "1"
    = Ok (Flat [1])
  /\ handle_data_array Little (fun _ _ _ => Ok 0) dec_fromstr (doc_v1 Big) ascii_int16 "1"
    = Ok (Flat [256]).
Proof.
  exact (ascii_host_byte_order (fun _ _ _ => Ok 0) dec_fromstr
    ltac:(vm_compute; reflexivity)).
Defined.

(** ** The builder callbacks *)

Lemma elem_tag_data (b : builder) (s : string) : elem_tag (data b s) = elem_tag b.
Proof. unfold data. destruct (_ || _); reflexivity. Qed.

Lemma data_data (b : builder) (s1 s2 : string) :
  data (data b s1) s2 = data b (s1 ++ s2).
Proof.
  unfold data at 1. rewrite elem_tag_data. unfold data.
  destruct (_ || _); [|reflexivity]. simpl. now rewrite str_app_assoc.
Qed.

Lemma concat_cons (c : string) (cs : list string) :
  String.concat "" (c :: cs) = (c ++ String.concat "" cs)%string.
Proof. destruct cs; simpl; [symmetry; apply str_app_nil | reflexivity]. Qed.

(** Character data delivered in several [data] calls is recorded as its
    concatenation: feeding the pieces one by one equals feeding them at
    once. *)
Theorem data_chunks (b : builder) (chunks : list string) :
  fold_left data chunks b = data b (String.concat "" chunks).
Proof.
  revert b. induction chunks as [|c cs IH]; intros b.
  - destruct b. unfold data. simpl. destruct (_ || _); [|reflexivity].
    now rewrite str_app_nil.
  - simpl fold_left. rewrite IH, data_data, concat_cons. reflexivity.
Qed.

Lemma start_dataarray_shape (regs : list registration) (el : nat) (a : attrs)
  (regs' : list registration) :
  start_dataarray regs el a = Ok regs' ->
  regs' = regs \/ exists off t, regs' = regs ++ [(off, t, el)].
Proof.
  unfold start_dataarray, attr_index. intros H.
  destruct (attr_get "format" a) as [fmt|]; cbn [bind] in H; [|discriminate].
  destruct (String.eqb fmt "appended").
  - destruct (attr_get "offset" a) as [o|]; cbn [bind] in H; [|discriminate].
    destruct (py_int o) as [off|]; cbn [bind] in H; [|discriminate].
    destruct (attr_get "type" a) as [t|]; cbn [bind] in H; [|discriminate].
    destruct (_ || _); [|discriminate]. injection H as <-. right. eauto.
  - cbn [bind] in H. destruct (_ || _); [|discriminate]. injection H as <-. left. reflexivity.
Qed.

(** The queue of appended registrations only grows: a start event adds at
    most one entry at the end, [data] leaves it alone and no end event
    (not even the AppendedData end) removes anything. *)
Theorem registrations_append_only (native : endian) (float_count : kind -> Z -> Z -> result Z)
  (fromstr : kind -> list ascii -> option (Z * list ascii)) (b : builder) :
  (forall tag a b', start b tag a = Ok b' ->
     exists new, appended_data_arrays b' = appended_data_arrays b ++ new
       /\ (List.length new <= 1)%nat)
  /\ (forall s, appended_data_arrays (data b s) = appended_data_arrays b)
  /\ (forall tag b', end_ native float_count fromstr b tag = Ok b' ->
        appended_data_arrays b' = appended_data_arrays b).
Proof.
  split; [|split].
  - intros tag a b' H. unfold start in H.
    destruct (String.eqb tag "VTKFile").
    + destruct (start_vtkfile a); cbn [bind] in H; [|discriminate].
      injection H as <-. exists []. rewrite app_nil_r. auto.
    + destruct (String.eqb tag "DataArray").
      * destruct (start_dataarray _ _ _) as [regs|] eqn:E; cbn [bind] in H; [|discriminate].
        injection H as <-. simpl.
        destruct (start_dataarray_shape _ _ _ _ E) as [->|(off & t & ->)].
        -- exists []. rewrite app_nil_r. auto.
        -- exists [(off, t, List.length (elems b))]. auto.
      * injection H as <-. exists []. rewrite app_nil_r. auto.
  - intros s. unfold data. destruct (_ || _); reflexivity.
  - intros tag b' H. unfold end_ in H.
    destruct (String.eqb tag "DataArray").
    + destruct (need_doc b); cbn [bind] in H; [|discriminate].
      destruct (handle_data_array _ _ _ _ _ _); cbn [bind] in H; [|discriminate].
      injection H as <-. reflexivity.
    + destruct (String.eqb tag "AppendedData").
      * destruct (b64decode (array_data b)); cbn [bind] in H; [|discriminate].
        destruct (need_doc b); cbn [bind] in H; [|discriminate].
        destruct (resolve_all _ _ _ _ _ _); cbn [bind] in H; [|discriminate].
        injection H as <-. reflexivity.
      * injection H as <-. reflexivity.
Qed.

(** The start of an appended DataArray whose offset attribute is the decimal
    text of [n] queues [(n, type, element)] at the end of the registrations,
    where the element is the one just opened. *)
Theorem start_appended_registers (b : builder) (a : attrs) (n : Z) (t : string) :
  attr_get "format" a = Some "appended"%string ->
  attr_get "offset" a = Some (dec_string n) ->
  attr_get "type" a = Some t ->
  exists b', start b "DataArray" a = Ok b'
    /\ appended_data_arrays b' = appended_data_arrays b ++ [(n, t, elem b')]
    /\ elem b' = List.length (elems b)
    /\ elem_tag b' = "DataArray"%string /\ elem_attrs b' = a.
Proof.
  intros Hf Ho Ht. unfold start. cbn [String.eqb Ascii.eqb Bool.eqb].
  unfold start_dataarray, attr_index. rewrite Hf. cbn [bind String.eqb Ascii.eqb Bool.eqb].
  rewrite Ho. cbn [bind]. rewrite py_int_dec_string. cbn [bind]. rewrite Ht. cbn [bind].
  eexists. split; [reflexivity|]. simpl. split; [reflexivity|]. split; [reflexivity|].
  unfold elem_tag, elem_attrs. simpl.
  rewrite nth_error_app2, Nat.sub_diag by lia. split; reflexivity.
Qed.

Definition appended_uint16_6 : attrs :=
  [("type", "UInt16"); ("format", "appended"); ("offset", "6")]%string.

Lemma start_appended_registers_witness :
  exists b', start empty_builder "DataArray" appended_uint16_6 = Ok b'
    /\ appended_data_arrays b' = appended_data_arrays empty_builder ++ [(6, "UInt16"%string, elem b')]
    /\ elem b' = List.length (elems empty_builder)
    /\ elem_tag b' = "DataArray"%string /\ elem_attrs b' = appended_uint16_6.
Proof.
  exact (start_appended_registers empty_builder appended_uint16_6 6 "UInt16"
    eq_refl ltac:(vm_compute; reflexivity) eq_refl).
Defined.
(** Version 0.1 binary DataArray: with a length header [L] and a content
    that holds at least [L / size] elements, the decoder reads [L / size]
    elements from the start of the decoded content and ignores any bytes
    after them. *)
Theorem split_header_content_length (native : endian)
  (float_count : kind -> Z -> Z -> result Z)
  (fromstr : kind -> list ascii -> option (Z * list ascii)) (d : doc) (a : attrs) (k : kind)
  (L : Z) (content : list Z) :
  split_header d = true -> is_float (header_type d) = false ->
  in_range (header_type d) L -> 0 <= L -> Forall is_byte content ->
  L / calcsize k * calcsize k <= Z.of_nat (List.length content) ->
  attr_get "type" a = Some (kind_name k) -> attr_get "format" a = Some "binary"%string ->
  attr_get "NumberOfComponents" a = None ->
  handle_data_array native float_count fromstr d a
    (b64encode (pack (byteorder d) (header_type d) L) ++ b64encode content)
  = Ok (Flat (read_elems (byteorder d) k (Z.to_nat (L / calcsize k)) content))
  /\ (forall xs extra, Forall (in_range k) xs -> L = Z.of_nat (List.length xs) * calcsize k ->
        content = List.concat (map (pack (byteorder d) k) xs) ++ extra ->
        handle_data_array native float_count fromstr d a
          (b64encode (pack (byteorder d) (header_type d) L) ++ b64encode content)
        = Ok (Flat xs)).
Proof.
  intros Hsplit Hhf Hhr HL Hc Hroom Htype Hfmt Hnc.
  pose proof (calcsize_pos k) as Hk.
  assert (Hlen : String.length (b64encode (pack (byteorder d) (header_type d) 0))
                 = String.length (b64encode (pack (byteorder d) (header_type d) L)))
    by (apply b64encode_length; rewrite !pack_length; reflexivity).
  assert (Main : handle_data_array native float_count fromstr d a
    (b64encode (pack (byteorder d) (header_type d) L) ++ b64encode content)
    = Ok (Flat (read_elems (byteorder d) k (Z.to_nat (L / calcsize k)) content))).
  { unfold handle_data_array, decode_flat.
    unfold attr_index. rewrite Htype. cbn [bind].
    unfold buffers_index. rewrite buffers_kind_name. cbn [bind].
    rewrite Hfmt. cbn [bind String.eqb Ascii.eqb Bool.eqb].
    rewrite py_strip_id
      by (rewrite no_space_app, !b64encode_no_space by (apply pack_bytes || exact Hc);
          reflexivity).
    rewrite Hlen, py_slice_to_app, py_slice_from_app.
    rewrite b64decode_b64encode by apply pack_bytes. cbn [bind].
    rewrite unpack_from_pack by assumption. cbn [bind].
    rewrite Hsplit.
    rewrite b64decode_b64encode by exact Hc. cbn [bind py_count].
    unfold fromstring_bin.
    replace (L / calcsize k <? 0) with false
      by (symmetry; apply Z.ltb_ge; apply Z.div_pos; lia).
    replace (Z.of_nat (List.length content) <? L / calcsize k * calcsize k) with false
      by (symmetry; apply Z.ltb_ge; exact Hroom).
    cbn [bind]. unfold finish_shape, ncomp_of. rewrite Hnc. reflexivity. }
  split; [exact Main|].
  intros xs extra Hxs -> ->. rewrite Main. rewrite count_of_length.
  rewrite Nat2Z.id, read_elems_pack_app by exact Hxs. reflexivity.
Qed.

Lemma split_header_content_length_witness :
  handle_data_array Little (fun _ _ _ => Ok 0) (fun _ _ => None) (doc_v01 Little) binary_int16
    (b64encode (pack (byteorder (doc_v01 Little)) (header_type (doc_v01 Little)) 4)
     ++ b64encode [1; 0; 2; 0; 3])
  = Ok (Flat (read_elems Little Int16 (Z.to_nat (4 / calcsize Int16)) [1; 0; 2; 0; 3])).
Proof.
  exact (proj1 (split_header_content_length Little (fun _ _ _ => Ok 0) (fun _ _ => None)
    (doc_v01 Little) binary_int16 Int16 4 [1; 0; 2; 0; 3] eq_refl eq_refl
    ltac:(unfold in_range; simpl; lia) ltac:(lia)
    ltac:(repeat constructor; unfold is_byte; lia) ltac:(vm_compute; discriminate)
    eq_refl eq_refl eq_refl)).
Defined.

Module PatcherFacts.
Import Patcher.
Local Open Scope string_scope.

Lemma prefix_app_l (p q s : string) : prefix (p ++ q) s = true -> prefix p s = true.
Proof.
  revert s. induction p as [|c p IH]; intros s H; [destruct s; reflexivity|].
  destruct s as [|c' s]; [discriminate|]. simpl in H |- *.
  destruct (ascii_dec c c'); [apply IH; exact H | discriminate].
Qed.

Lemma contains_app_l (p q s : string) : contains (p ++ q) s = true -> contains p s = true.
Proof.
  induction s as [|c s IH]; intros H; cbn [contains] in H |- *.
  - rewrite orb_false_r in H |- *. exact (prefix_app_l _ _ _ H).
  - apply orb_prop in H as [H|H].
    + rewrite (prefix_app_l _ _ _ H). reflexivity.
    + rewrite (IH H). apply orb_true_r.
Qed.

Lemma sub_raw_fuel_plain (f : nat) (s : string) :
  contains marker s = false -> sub_raw_fuel f s = s.
Proof.
  revert s. induction f as [|f IH]; intros s H; [reflexivity|].
  destruct s as [|c s]; [reflexivity|].
  cbn [contains] in H. apply orb_false_iff in H as [Hp Hc].
  cbn [sub_raw_fuel]. rewrite Hp, IH by exact Hc. reflexivity.
Qed.

Lemma feed_init_plain (c : string) :
  contains marker c = false -> feed init c = (init, Some c).
Proof.
  intros H. unfold feed.
  assert (Hs : contains raw_start c = false).
  { destruct (contains raw_start c) eqn:E; [|reflexivity].
    unfold raw_start in E. rewrite (contains_app_l _ _ _ E) in H. discriminate. }
  rewrite Hs. cbn [andb incomplete_raw_tag init].
  unfold sub_raw. rewrite sub_raw_fuel_plain by exact H. reflexivity.
Qed.

(** Chunks none of which contains the raw AppendedData start tag are passed
    on to the XML parser unchanged, one for one. *)
Theorem feed_without_raw_passthrough (chunks : list string) :
  Forall (fun c => contains marker c = false) chunks -> feed_all init chunks = chunks.
Proof.
  induction chunks as [|c cs IH]; intros H; [reflexivity|].
  inversion H; subst. cbn [feed_all]. rewrite feed_init_plain by assumption.
  rewrite IH by assumption. reflexivity.
Qed.

Lemma feed_without_raw_passthrough_witness :
  Forall (fun c => contains marker c = false) ["<VTKFile>"; "</VTKFile>"]
  /\ feed_all init ["<VTKFile>"; "</VTKFile>"] = ["<VTKFile>"; "</VTKFile>"].
Proof.
  assert (H : Forall (fun c => contains marker c = false) ["<VTKFile>"; "</VTKFile>"])
    by (repeat constructor).
  split; [exact H | exact (feed_without_raw_passthrough _ H)].
Defined.

(** One [feed] call, from a state where a clear flag means an empty buffer:
    either the chunk is withheld (buffer extended, flag set) or the buffer
    plus the chunk is passed on, after the raw-section substitution, and the
    parser returns to its initial state. *)
Theorem feed_step (p : parser) (data : string) (p' : parser) (out : option string) :
  (incomplete_raw_tag p = false -> raw_data p = "") ->
  feed p data = (p', out) ->
  (incomplete_raw_tag p' = false -> raw_data p' = "")
  /\ match out with
     | None => incomplete_raw_tag p' = true /\ raw_data p' = raw_data p ++ data
     | Some s => p' = init /\ s = sub_raw (raw_data p ++ data)
     end.
Proof.
  destruct p as [inc rd]. cbn [incomplete_raw_tag raw_data]. intros Hinv H.
  unfold feed in H. cbn [incomplete_raw_tag raw_data] in H.
  destruct (contains raw_start data && negb (contains raw_end data)).
  - destruct (search_raw (rd ++ data)); injection H as <- <-; simpl; repeat split; try reflexivity; intros; discriminate.
  - destruct inc.
    + destruct (search_raw (rd ++ data)); injection H as <- <-; simpl; repeat split; try reflexivity; intros; discriminate.
    + rewrite (Hinv eq_refl) in H |- *. injection H as <- <-. simpl. repeat split; try reflexivity; intros; discriminate.
Qed.

Lemma feed_step_witness :
  incomplete_raw_tag {| incomplete_raw_tag := true; raw_data := raw_start |} = true
  /\ raw_data {| incomplete_raw_tag := true; raw_data := raw_start |}
     = raw_data init ++ raw_start.
Proof.
  exact (proj2 (feed_step init raw_start
    {| incomplete_raw_tag := true; raw_data := raw_start |} None
    (fun _ => eq_refl) ltac:(vm_compute; reflexivity))).
Defined.

End PatcherFacts.
